(** * Flow-log tagging: a shallow embedding of [main.py]

    The program reads two CSV reference tables (protocol numbers and a
    port/protocol -> tag lookup), streams a flow log, counts tags and
    port/protocol combinations, and writes a two-section text report.

    Conventions of the embedding.
    - A Python [str] is a [string]; a character is a code point below 256.
      [isspace], [lower], [split] and [strip] follow Python's behaviour on
      these code points.
    - A Python [int] is a [Z].
    - The two reference dictionaries are only ever read with [get] and
      written with [d[k] = v], so they are finite maps ([gmap]).
    - The two counters are iterated by the report writer, so their
      insertion order is kept: they are association lists with one entry
      per key, in order of first insertion.
    - Exceptions are values of [exn]; a computation that may raise returns
      a [result].
    - Text written by [print] to standard output is not modelled. *)

From stdpp Require Import gmap strings list fin_maps pretty.
From Stdlib Require Import Ascii String ZArith Lia.

Open Scope string_scope.
Open Scope Z_scope.

(** ** Exceptions *)

Inductive exn : Type :=
| FileNotFoundError (path : string)
| KeyError (key : string)
| AttributeError
| IndexError.

Inductive result (A : Type) : Type :=
| Ok (a : A)
| Raise (e : exn).
Arguments Ok {A} a.
Arguments Raise {A} e.

Definition rbind {A B} (r : result A) (k : A -> result B) : result B :=
  match r with
  | Ok a => k a
  | Raise e => Raise e
  end.

Notation "'try!' x <- c ; k" := (rbind c (fun x => k))
  (at level 10, x name, c at level 100, k at level 200,
   format "'[v' 'try!'  x  <-  c ; '/' k ']'").

(** [for x in xs: st = body(st, x)], where the body may raise. *)
Fixpoint for_each {A S} (body : S -> A -> result S) (xs : list A) (st : S)
  : result S :=
  match xs with
  | [] => Ok st
  | x :: xs' => try! st' <- body st x; for_each body xs' st'
  end.

(** ** Python string primitives *)

Module PyStr.

(** [str.isspace] on one character. *)
Definition isspace (c : ascii) : bool :=
  let n := N_of_ascii c in
  (((9 <=? n) && (n <=? 13)) || ((28 <=? n) && (n <=? 32))
   || (n =? 133) || (n =? 160))%N.

(** [str.lower] on one character. *)
Definition lower_char (c : ascii) : ascii :=
  let n := N_of_ascii c in
  if (((65 <=? n) && (n <=? 90))
      || ((192 <=? n) && (n <=? 222) && negb (n =? 215)))%N
  then ascii_of_N (n + 32) else c.

Fixpoint lower (s : string) : string :=
  match s with
  | EmptyString => EmptyString
  | String c s' => String (lower_char c) (lower s')
  end.

Definition is_empty (s : string) : bool :=
  match s with EmptyString => true | _ => false end.

Fixpoint lstrip (s : string) : string :=
  match s with
  | EmptyString => EmptyString
  | String c s' => if isspace c then lstrip s' else s
  end.

Fixpoint rstrip (s : string) : string :=
  match s with
  | EmptyString => EmptyString
  | String c s' =>
      let r := rstrip s' in
      if isspace c && is_empty r then EmptyString else String c r
  end.

(** [s.strip()] *)
Definition strip (s : string) : string := lstrip (rstrip s).

Fixpoint rev_onto (s acc : string) : string :=
  match s with
  | EmptyString => acc
  | String c s' => rev_onto s' (String c acc)
  end.

(** The field being read is kept reversed in [cur]. *)
Definition flush (cur : string) (rest : list string) : list string :=
  if is_empty cur then rest else rev_onto cur EmptyString :: rest.

Fixpoint split_go (cur : string) (s : string) : list string :=
  match s with
  | EmptyString => flush cur []
  | String c s' =>
      if isspace c then flush cur (split_go EmptyString s')
      else split_go (String c cur) s'
  end.

(** [s.split()]: maximal runs of non-whitespace characters. *)
Definition split (s : string) : list string := split_go EmptyString s.

(** [str(n)] and [f"{n}"] for an [int]. *)
Definition of_int (n : Z) : string := pretty n.

End PyStr.

(** ** Python dictionaries *)

(** [d[k]] on a dictionary with string keys. *)
Definition getitem {V} (d : gmap string V) (k : string) : result V :=
  match d !! k with
  | Some v => Ok v
  | None => Raise (KeyError k)
  end.

(** [xs[i]] for an index [0 <= i]. *)
Definition index {A} (xs : list A) (i : nat) : result A :=
  match xs !! i with
  | Some x => Ok x
  | None => Raise IndexError
  end.

(** [defaultdict(int)], kept in insertion order. *)
Module Counter.
Section Counter.
Context {K : Type} `{EqDecision K}.

Fixpoint get (d : list (K * Z)) (k : K) : option Z :=
  match d with
  | [] => None
  | (k', v) :: d' => if decide (k' = k) then Some v else get d' k
  end.

(** [d[k] = v]: an existing key keeps its place, a new key goes last. *)
Fixpoint setitem (d : list (K * Z)) (k : K) (v : Z) : list (K * Z) :=
  match d with
  | [] => [(k, v)]
  | (k', v') :: d' =>
      if decide (k' = k) then (k', v) :: d' else (k', v') :: setitem d' k v
  end.

(** [d[k]] as an expression: a missing key is first stored with [int()],
    that is 0, and that value is returned. *)
Definition getitem_missing (d : list (K * Z)) (k : K) : Z * list (K * Z) :=
  match get d k with
  | Some v => (v, d)
  | None => (0, setitem d k 0)
  end.

(** [d[k] += 1] *)
Definition incr (d : list (K * Z)) (k : K) : list (K * Z) :=
  let '(v, d') := getitem_missing d k in
  setitem d' k (v + 1).

(** [d.keys()], [sum(d.values())] and the count a read of [d[k]] gives. *)
Definition keys (d : list (K * Z)) : list K := d.*1.
Definition total (d : list (K * Z)) : Z := foldr Z.add 0 d.*2.
Definition count (d : list (K * Z)) (k : K) : Z := default 0 (get d k).

End Counter.
End Counter.

(** ** csv.DictReader *)

Module Csv.

(** The dictionary [DictReader] builds for one row: header name to field,
    a name beyond the end of a short row to [None] (the [restval]).
    The surplus fields of a long row go under the key [None], which no
    string subscript reaches; that entry is left out. *)
Definition make_row (fieldnames fields : list string)
  : gmap string (option string) :=
  let d := foldl (fun d kv => <[kv.1 := Some kv.2]> d) ∅
                 (zip fieldnames fields) in
  foldl (fun d key => <[key := None]> d) d
        (drop (List.length fields) fieldnames).

Definition nonblank (fields : list string) : bool :=
  match fields with [] => false | _ => true end.

(** The rows [DictReader] yields over the rows of [csv.reader]: the first
    row is the header, blank rows after it are passed over. *)
Definition dict_rows (rows : list (list string))
  : list (gmap string (option string)) :=
  match rows with
  | [] => []
  | fieldnames :: rest =>
      map (make_row fieldnames) (List.filter nonblank rest)
  end.

(** [v.strip()] on a row value; [None] has no such method. *)
Definition strip (v : option string) : result string :=
  match v with
  | Some s => Ok (PyStr.strip s)
  | None => Raise AttributeError
  end.

End Csv.

(** ** The loaders, over the rows of the table *)

(** Body of the loop of [load_protocol_mapping]. *)
Definition protocol_row (protocol_map : gmap string string)
    (row : gmap string (option string)) : result (gmap string string) :=
  try! decimal <- getitem row "Decimal";
  try! protocol_number <- Csv.strip decimal;
  try! keyword <- getitem row "Keyword";
  try! protocol_name <- Csv.strip keyword;
  Ok (<[protocol_number := protocol_name]> protocol_map).

Definition load_protocol_rows (rows : list (list string))
  : result (gmap string string) :=
  for_each protocol_row (Csv.dict_rows rows) ∅.

(** Body of the loop of [load_lookup_table]. *)
Definition lookup_row (lookup_dict : gmap (string * string) string)
    (row : gmap string (option string))
  : result (gmap (string * string) string) :=
  try! dstport <- getitem row "dstport";
  try! dstport <- Csv.strip dstport;
  try! protocol <- getitem row "protocol";
  try! protocol <- Csv.strip protocol;
  let key := (dstport, PyStr.lower protocol) in
  try! tag <- getitem row "tag";
  try! tag <- Csv.strip tag;
  Ok (<[key := tag]> lookup_dict).

Definition load_lookup_rows (rows : list (list string))
  : result (gmap (string * string) string) :=
  for_each lookup_row (Csv.dict_rows rows) ∅.

(** ** The classifier *)

Definition LOG_COLUMN_MAP : gmap string nat :=
  list_to_map
    [("version", 0%nat); ("account_id", 1%nat); ("interface_id", 2%nat);
     ("src_addr", 3%nat); ("dst_addr", 4%nat); ("dstport", 5%nat);
     ("srcport", 6%nat); ("protocol", 7%nat); ("packets", 8%nat);
     ("bytes", 9%nat); ("start", 10%nat); ("end", 11%nat);
     ("action", 12%nat); ("log_status", 13%nat)].

(** The two counters [parse_flow_logs] accumulates. *)
Record counts : Type := Counts {
  tag_counts : list (string * Z);
  port_protocol_counts : list ((string * string) * Z)
}.

Definition no_counts : counts := Counts [] [].

(** Body of the loop of [parse_flow_logs]: one line of the flow log. *)
Definition classify_line (lookup_dict : gmap (string * string) string)
    (protocol_mapping : gmap string string) (st : counts) (line : string)
  : result counts :=
  let columns := PyStr.split line in
  if negb (List.length columns =? size LOG_COLUMN_MAP)%nat then Ok st
  else
    try! i <- getitem LOG_COLUMN_MAP "dstport";
    try! dstport <- index columns i;
    try! j <- getitem LOG_COLUMN_MAP "protocol";
    try! number <- index columns j;
    let protocol :=
      PyStr.lower (default "Undefined" (protocol_mapping !! number)) in
    let tag := default "Untagged" (lookup_dict !! (dstport, protocol)) in
    Ok (Counts (Counter.incr (tag_counts st) tag)
               (Counter.incr (port_protocol_counts st) (dstport, protocol))).

(** [parse_flow_logs] over the lines of the flow log. *)
Definition parse_flow_lines (lines : list string)
    (lookup_dict : gmap (string * string) string)
    (protocol_mapping : gmap string string) : result counts :=
  for_each (classify_line lookup_dict protocol_mapping) lines no_counts.

(** ** The report writer *)

(** [file.write(s)] on the text written so far. *)
Definition write (file s : string) : string := file +:+ s.

Definition tag_line (entry : string * Z) : string :=
  entry.1 +:+ "," +:+ PyStr.of_int entry.2 +:+ "
".

Definition port_protocol_line (entry : (string * string) * Z) : string :=
  entry.1.1 +:+ "," +:+ entry.1.2 +:+ "," +:+ PyStr.of_int entry.2 +:+ "
".

(** The text [write_output] leaves in the output file, which it opens
    empty. *)
Definition write_output (tag_counts : list (string * Z))
    (port_protocol_counts : list ((string * string) * Z)) : string :=
  let file := "" in
  let file := write file "Tag Counts:
Tag,Count
" in
  let file := foldl (fun file entry => write file (tag_line entry))
                    file tag_counts in
  let file := write file "
Port/Protocol Combination Counts:
Port,Protocol,Count
" in
  foldl (fun file entry => write file (port_protocol_line entry))
        file port_protocol_counts.

(** ** Files and the whole run *)

Module File.

Definition LF : ascii := ascii_of_N 10.
Definition CR : ascii := ascii_of_N 13.

(** The lines a text-mode file yields when iterated: each ends at a line
    feed, a carriage return or the pair of them, read as one line feed;
    the last line may lack it. *)
Fixpoint lines_go (after_cr : bool) (cur : string) (s : string)
  : list string :=
  match s with
  | EmptyString => PyStr.flush cur []
  | String c s' =>
      if Ascii.eqb c LF then
        if after_cr then lines_go false cur s'
        else PyStr.rev_onto (String LF cur) "" :: lines_go false "" s'
      else if Ascii.eqb c CR then
        PyStr.rev_onto (String LF cur) "" :: lines_go true "" s'
      else lines_go false (String c cur) s'
  end.

Definition lines (text : string) : list string := lines_go false "" text.

(** [open(path, 'r')] and reading the whole text. *)
Definition read (fs : gmap string string) (path : string) : result string :=
  match fs !! path with
  | Some text => Ok text
  | None => Raise (FileNotFoundError path)
  end.

End File.

Section Run.

(** The rows [csv.reader] yields for the text of a file. *)
Variable csv_reader : string -> list (list string).

Definition load_protocol_mapping (fs : gmap string string)
    (csv_file : string) : result (gmap string string) :=
  try! text <- File.read fs csv_file;
  load_protocol_rows (csv_reader text).

Definition load_lookup_table (fs : gmap string string)
    (lookup_file : string) : result (gmap (string * string) string) :=
  try! text <- File.read fs lookup_file;
  load_lookup_rows (csv_reader text).

Definition parse_flow_logs (fs : gmap string string)
    (flow_log_file : string)
    (lookup_dict : gmap (string * string) string)
    (protocol_mapping : gmap string string) : result counts :=
  try! text <- File.read fs flow_log_file;
  parse_flow_lines (File.lines text) lookup_dict protocol_mapping.

(** [main]: the file store after the run. The store is flat, so opening
    the output file for writing succeeds and leaves it with the report as
    its whole text. *)
Definition main (fs : gmap string string) : result (gmap string string) :=
  try! protocol_mapping <-
    load_protocol_mapping fs "inputfiles/protocol_number_mapping.csv";
  let lookup_file := "inputfiles/lookup_table_refer.csv" in
  let flow_log_file := "inputfiles/flow_log_data.txt" in
  let output_file := "outputfiles/output_counts.txt" in
  try! lookup_dict <- load_lookup_table fs lookup_file;
  try! c <- parse_flow_logs fs flow_log_file lookup_dict protocol_mapping;
  Ok (<[output_file :=
          write_output (tag_counts c) (port_protocol_counts c)]> fs).

End Run.

(** The report of a run: the text of the output file when the run ends
    normally, the exception otherwise. *)
Definition report (r : result (gmap string string)) : result (option string) :=
  try! fs <- r; Ok (fs !! "outputfiles/output_counts.txt").

(** The rows [csv.reader] yields for text in which no field starts with a
    double quote: one row per line, fields cut at commas, a blank line
    giving the empty row. *)
Module PlainCsv.

Definition COMMA : ascii := ascii_of_N 44.

Fixpoint fields_go (cur : string) (s : string) : list string :=
  match s with
  | EmptyString => [PyStr.rev_onto cur ""]
  | String c s' =>
      if Ascii.eqb c File.LF then [PyStr.rev_onto cur ""]
      else if Ascii.eqb c COMMA then
        PyStr.rev_onto cur "" :: fields_go "" s'
      else fields_go (String c cur) s'
  end.

Definition fields (line : string) : list string :=
  if Ascii.eqb (default File.LF (head (list_ascii_of_string line))) File.LF
  then [] else fields_go "" line.

Definition reader (text : string) : list (list string) :=
  map fields (File.lines text).

End PlainCsv.

(** ** Vocabulary of the properties *)

(** A line of the flow log that splits into exactly 14 fields. *)
Definition has_14_fields (line : string) : bool :=
  (List.length (PyStr.split line) =? 14)%nat.

(** The protocol name the classifier resolves for a protocol number. *)
Definition protocol_name (protocol_mapping : gmap string string)
    (number : string) : string :=
  PyStr.lower (default "Undefined" (protocol_mapping !! number)).

(** Sample data: a small lookup table, a small protocol table and three
    lines of a flow log. *)
Definition sample_lookup : gmap (string * string) string :=
  <[("25", "tcp") := "sv_P1"]> (<[("68", "udp") := "sv_P2"]> ∅).

Definition sample_protocols : gmap string string :=
  <["6" := "TCP"]> (<["17" := "UDP"]> ∅).

Definition line_25_tcp : string :=
  "2 123456789012 eni-0a1b2c3d 10.0.1.201 198.51.100.2 25 49153 6 25 20000 1620140761 1620140821 ACCEPT OK
".

Definition line_80_unknown : string :=
  "2 123456789012 eni-4d3c2b1a 192.168.1.100 203.0.113.101 80 49154 200 15 12000 1620140761 1620140821 REJECT OK
".

Definition line_short : string :=
  "2 123456789012 eni-0a1b2c3d 10.0.1.201
".

(** A lookup table whose one row configures the tag text "Untagged". *)
Definition untagged_lookup : gmap (string * string) string :=
  <[("25", "tcp") := "Untagged"]> ∅.

(** The texts of a list, one after the other. *)
Definition concat_text (texts : list string) : string :=
  foldr String.append "" texts.

(** The trimmed text a row holds under a column name, when the row has
    that column and the field is there. *)
Definition field (row : gmap string (option string)) (name : string)
  : option string :=
  match row !! name with
  | Some (Some s) => Some (PyStr.strip s)
  | _ => None
  end.

(** The key and the value a row of the protocol table stands for. *)
Definition protocol_entry (row : gmap string (option string))
  : option (string * string) :=
  match field row "Decimal", field row "Keyword" with
  | Some number, Some name => Some (number, name)
  | _, _ => None
  end.

(** The key and the value a row of the lookup table stands for. *)
Definition lookup_entry (row : gmap string (option string))
  : option ((string * string) * string) :=
  match field row "dstport", field row "protocol", field row "tag" with
  | Some dstport, Some protocol, Some tag =>
      Some ((dstport, PyStr.lower protocol), tag)
  | _, _, _ => None
  end.

(** The header lacks one of the required column names. *)
Definition lacks_column (required header : list string) : Prop :=
  exists c, c ∈ required /\ c ∉ header.

(** The exception the loop body ends with on a row dictionary, as the
    first of the required columns without a value decides it, the columns
    taken in the order the loader subscripts them: [KeyError] for a name
    the dictionary lacks, [AttributeError] for a name bound to [None]. *)
Fixpoint first_failure (row : gmap string (option string))
    (required : list string) : option exn :=
  match required with
  | [] => None
  | c :: required' =>
      match row !! c with
      | None => Some (KeyError c)
      | Some None => Some AttributeError
      | Some (Some _) => first_failure row required'
      end
  end.

(** The computation raises, and raises what the row [fields] of a table
    with the header [header] makes of the required columns: a [KeyError]
    only for a required column the header lacks, an [AttributeError] only
    where the header has a required column and the row ends before it. *)
Definition fails_at_row {A} (required header fields : list string)
    (r : result A) : Prop :=
  exists e,
    r = Raise e /\
    first_failure (Csv.make_row header fields) required = Some e /\
    (forall c, e = KeyError c -> c ∈ required /\ (c ∉ header)) /\
    (e = AttributeError ->
     exists c, c ∈ required /\ c ∈ header /\
               Csv.make_row header fields !! c = Some None).

(** A protocol table and a lookup table in which a key comes twice. *)
Definition duplicate_protocol_rows : list (list string) :=
  [["Decimal"; "Keyword"]; ["6"; "TCP"]; [" 6"; "TCP-NEW"]; ["17"; "UDP"]].

Definition duplicate_lookup_rows : list (list string) :=
  [["dstport"; "protocol"; "tag"]; ["25"; "tcp"; "sv_P1"];
   ["25"; "TCP "; "sv_P9"]; ["68"; "udp"; "sv_P2"]].

(** The files [main] reads. *)
Definition input_files : list string :=
  ["inputfiles/protocol_number_mapping.csv";
   "inputfiles/lookup_table_refer.csv";
   "inputfiles/flow_log_data.txt"].

(** Two file stores hold the same input files. *)
Definition same_inputs (fs1 fs2 : gmap string string) : Prop :=
  forall path, path ∈ input_files -> fs1 !! path = fs2 !! path.

(** A file store with the three input files and no output file yet, and
    the same store with an old report and a stray file in it. *)
Definition sample_files : gmap string string :=
  <["inputfiles/protocol_number_mapping.csv" := "Decimal,Keyword,Protocol
6,TCP,Transmission Control
17,UDP,User Datagram
"]> (<["inputfiles/lookup_table_refer.csv" := "dstport,protocol,tag
25,TCP,sv_P1
68,udp,sv_P2
"]> (<["inputfiles/flow_log_data.txt" :=
         line_25_tcp +:+ line_short +:+ line_80_unknown +:+ line_25_tcp]> ∅)).

Definition stale_files : gmap string string :=
  <["outputfiles/output_counts.txt" := "Tag Counts:
"]> (<["notes.txt" := "kept"]> sample_files).

(** The sample store with a protocol table, and with a lookup table,
    whose header lacks a required column. *)
Definition bad_protocol_files : gmap string string :=
  <["inputfiles/protocol_number_mapping.csv" := "Number,Keyword
6,TCP
"]> sample_files.

Definition bad_lookup_files : gmap string string :=
  <["inputfiles/lookup_table_refer.csv" := "dstport,protocol

25,tcp
"]> sample_files.

(** Membership in a list of column names written out. *)
Ltac in_columns := apply list_elem_of_In; simpl; tauto.
Ltac not_in_columns :=
  let Hin := fresh in
  intros Hin; apply list_elem_of_In in Hin; simpl in Hin;
  intuition discriminate.
Ltac each_column Hc :=
  apply list_elem_of_In in Hc; simpl in Hc; intuition (subst; congruence).

(** ** Vocabulary of the further properties *)

(** The destination port and the protocol number of a line, when the line
    has 14 fields. *)
Definition line_fields (line : string) : option (string * string) :=
  if has_14_fields line then
    match PyStr.split line !! 5%nat, PyStr.split line !! 7%nat with
    | Some dstport, Some number => Some (dstport, number)
    | _, _ => None
    end
  else None.

(** The port/protocol pair and the tag a line is counted under. *)
Definition line_pair (protocol_mapping : gmap string string) (line : string)
  : option (string * string) :=
  match line_fields line with
  | Some (dstport, number) =>
      Some (dstport, protocol_name protocol_mapping number)
  | None => None
  end.

Definition line_tag (lookup_dict : gmap (string * string) string)
    (protocol_mapping : gmap string string) (line : string) : option string :=
  match line_pair protocol_mapping line with
  | Some key => Some (default "Untagged" (lookup_dict !! key))
  | None => None
  end.

(** What one line does to the counters. *)
Definition tally_line (lookup_dict : gmap (string * string) string)
    (protocol_mapping : gmap string string) (st : counts) (line : string)
  : counts :=
  match line_pair protocol_mapping line with
  | Some key =>
      Counts (Counter.incr (tag_counts st)
                (default "Untagged" (lookup_dict !! key)))
             (Counter.incr (port_protocol_counts st) key)
  | None => st
  end.

(** How often a key comes in a list, and the keys of a list in the order
    in which each is first seen. *)
Definition occurrences {K} `{EqDecision K} (k : K) (ks : list K) : Z :=
  Z.of_nat (List.length (List.filter (fun x => bool_decide (x = k)) ks)).

Definition first_seen {K} `{EqDecision K} (ks : list K) : list K :=
  foldl (fun seen k => if decide (k ∈ seen) then seen else (seen ++ [k])%list)
        [] ks.

(** The sum of the port/protocol counts whose pair the lookup table gives
    the tag [tag]. *)
Definition tagged_total (lookup_dict : gmap (string * string) string)
    (d : list ((string * string) * Z)) (tag : string) : Z :=
  Counter.total
    (List.filter
       (fun e => bool_decide (default "Untagged" (lookup_dict !! e.1) = tag))
       d).

(** A text that neither starts nor ends with a whitespace character. *)
Definition starts_with_space (s : string) : bool :=
  match s with
  | EmptyString => false
  | String c _ => PyStr.isspace c
  end.

Fixpoint ends_with_space (s : string) : bool :=
  match s with
  | EmptyString => false
  | String c EmptyString => PyStr.isspace c
  | String _ s' => ends_with_space s'
  end.

Definition trimmed (s : string) : Prop :=
  starts_with_space s = false /\ ends_with_space s = false.

(** A text without any whitespace character. *)
Fixpoint no_space (s : string) : bool :=
  match s with
  | EmptyString => true
  | String c s' => negb (PyStr.isspace c) && no_space s'
  end.

(** The two headings alone, as a report without rows. *)
Definition empty_report : string :=
  "Tag Counts:
Tag,Count

Port/Protocol Combination Counts:
Port,Protocol,Count
".

(** A lookup table and a protocol table that write one protocol in
    different letter cases, and a line with a tab and doubled blanks
    between its fields. *)
Definition mixed_case_lookup_rows : list (list string) :=
  [["dstport"; "protocol"; "tag"]; [" 443 "; "Tcp "; "sv_web"];
   ["53"; "UDP"; "sv_dns"]].

Definition mixed_case_protocols : gmap string string :=
  <["6" := "TCP"]> (<["17" := "udp"]> ∅).

Definition line_443_tcp : string :=
  "2 123456789012  eni-5e6f7g8h	192.168.1.101 198.51.100.3 443 49155 6 10 5000 1620140761 1620140821 ACCEPT OK
".

(** A line with the destination port and protocol number of [line_25_tcp]
    and other text in every other field. *)
Definition line_25_tcp_other : string :=
  "3 999 eni-ffff 172.16.0.1 172.16.0.2 25 1 6 0 0 0 0 REJECT NODATA".

(** A text without a carriage return. *)
Fixpoint no_CR (s : string) : bool :=
  match s with
  | EmptyString => true
  | String c s' => negb (Ascii.eqb c File.CR) && no_CR s'
  end.

(** * Properties *)

(** ** The primitives on small inputs *)

Example split_example :
  PyStr.split "  2 123  eni-0a1b2c3d 10.0.1.201
" = ["2"; "123"; "eni-0a1b2c3d"; "10.0.1.201"].
Proof. reflexivity. Qed.

Example strip_example : PyStr.strip "  a b	 " = "a b".
Proof. reflexivity. Qed.

Example lower_example : PyStr.lower "Undefined" = "undefined".
Proof. reflexivity. Qed.

Example of_int_example : PyStr.of_int 120 = "120" /\ PyStr.of_int (-7) = "-7".
Proof. split; reflexivity. Qed.

Example load_protocol_example :
  load_protocol_rows
    [["Decimal"; "Keyword"; "Protocol"];
     ["6"; "TCP"; "Transmission Control"];
     [];
     [" 17 "; "UDP "; "User Datagram"]]
  = Ok (<["17" := "UDP"]> (<["6" := "TCP"]> ∅)).
Proof. vm_compute. reflexivity. Qed.

Example load_lookup_example :
  load_lookup_rows
    [["dstport"; "protocol"; "tag"]; ["25"; "TCP"; "sv_P1"]; ["68"; "udp "; "sv_P2"]]
  = Ok (<[("68", "udp") := "sv_P2"]> (<[("25", "tcp") := "sv_P1"]> ∅)).
Proof. vm_compute. reflexivity. Qed.

Example load_short_row :
  load_protocol_rows [["Decimal"; "Keyword"]; ["6"]] = Raise AttributeError.
Proof. vm_compute. reflexivity. Qed.

Example lines_example :
  File.lines (String "a" (String File.CR (String File.LF
                (String "b" (String File.LF (String File.LF "c"))))))
  = [String "a" (String File.LF ""); String "b" (String File.LF "");
     String File.LF ""; "c"].
Proof. reflexivity. Qed.

Example plain_reader_example :
  PlainCsv.reader "dstport,protocol,tag
25,tcp,sv_P1

68,udp,
" = [["dstport"; "protocol"; "tag"]; ["25"; "tcp"; "sv_P1"]; [];
     ["68"; "udp"; ""]].
Proof. reflexivity. Qed.

(** ** Facts about the counters *)

Section CounterFacts.
Context {K : Type} `{EqDecision K}.
Implicit Types (d : list (K * Z)) (k : K) (v : Z).

Lemma get_setitem_eq d k v : Counter.get (Counter.setitem d k v) k = Some v.
Proof.
  induction d as [|[k' v'] d IH]; simpl.
  - by rewrite decide_True.
  - destruct (decide (k' = k)) as [->|Hne]; simpl.
    + by rewrite decide_True.
    + by rewrite decide_False.
Qed.

Lemma get_setitem_ne d k k' v :
  k ≠ k' -> Counter.get (Counter.setitem d k v) k' = Counter.get d k'.
Proof.
  intros Hne. induction d as [|[k0 v0] d IH]; simpl.
  - by rewrite decide_False.
  - destruct (decide (k0 = k)) as [->|Hk0]; simpl.
    + by rewrite !decide_False.
    + by rewrite IH.
Qed.

Lemma setitem_setitem d k v w :
  Counter.setitem (Counter.setitem d k v) k w = Counter.setitem d k w.
Proof.
  induction d as [|[k0 v0] d IH]; simpl.
  - by rewrite decide_True.
  - destruct (decide (k0 = k)) as [->|Hk0]; simpl.
    + by rewrite decide_True.
    + by rewrite decide_False, IH.
Qed.

(** [d[k] += 1] stores the old count plus one, the old count of a
    missing key being 0. *)
Lemma incr_setitem d k :
  Counter.incr d k = Counter.setitem d k (Counter.count d k + 1).
Proof.
  unfold Counter.incr, Counter.getitem_missing, Counter.count.
  destruct (Counter.get d k); simpl; [done|].
  apply setitem_setitem.
Qed.

Lemma get_incr_eq d k :
  Counter.get (Counter.incr d k) k = Some (Counter.count d k + 1).
Proof. rewrite incr_setitem. apply get_setitem_eq. Qed.

Lemma get_incr_ne d k k' :
  k ≠ k' -> Counter.get (Counter.incr d k) k' = Counter.get d k'.
Proof. intros. rewrite incr_setitem. by apply get_setitem_ne. Qed.

Lemma total_setitem d k v :
  Counter.total (Counter.setitem d k v)
  = Counter.total d - Counter.count d k + v.
Proof.
  unfold Counter.total, Counter.count.
  induction d as [|[k0 v0] d IH]; csimpl; [lia|].
  destruct (decide (k0 = k)); csimpl; lia.
Qed.

Lemma total_incr d k : Counter.total (Counter.incr d k) = Counter.total d + 1.
Proof. rewrite incr_setitem, total_setitem. lia. Qed.

Lemma get_Some_elem d k v : Counter.get d k = Some v -> (k, v) ∈ d.
Proof.
  induction d as [|[k0 v0] d IH]; simpl; [done|].
  destruct (decide (k0 = k)) as [->|]; intros Hg.
  - injection Hg as ->. left.
  - right. by apply IH.
Qed.

Lemma Forall_setitem (P : K * Z -> Prop) d k v :
  Forall P d -> P (k, v) -> Forall P (Counter.setitem d k v).
Proof.
  intros Hd Hkv. induction Hd as [|[k0 v0] d Hx Hd IH]; simpl.
  - by constructor.
  - destruct (decide (k0 = k)) as [->|]; by constructor.
Qed.

(** Every stored count stays at least one under [d[k] += 1]. *)
Lemma incr_positive d k :
  Forall (fun e => 1 <= e.2) d -> Forall (fun e => 1 <= e.2) (Counter.incr d k).
Proof.
  intros Hd. rewrite incr_setitem. apply Forall_setitem; [done|]. simpl.
  unfold Counter.count. destruct (Counter.get d k) as [v|] eqn:Hg; simpl; [|lia].
  apply get_Some_elem in Hg. rewrite Forall_forall in Hd.
  specialize (Hd _ Hg). simpl in Hd. lia.
Qed.

(** A dictionary has one entry per key, and [d[k] += 1] keeps it so:
    an old key keeps its place, a new one is added last. *)
Lemma keys_setitem d k v :
  Counter.keys (Counter.setitem d k v)
  = if decide (k ∈ Counter.keys d) then Counter.keys d
    else (Counter.keys d ++ [k])%list.
Proof.
  unfold Counter.keys. induction d as [|[k0 v0] d IH]; csimpl.
  - destruct (decide (k ∈ [])) as [Hin|]; [|done].
    by apply not_elem_of_nil in Hin.
  - destruct (decide (k0 = k)) as [->|Hne]; csimpl.
    + destruct (decide (k ∈ k :: d.*1)) as [|Hnin]; [done|].
      destruct Hnin. left.
    + rewrite IH. destruct (decide (k ∈ d.*1)) as [Hin|Hnin];
        destruct (decide (k ∈ k0 :: d.*1)) as [Hin'|Hnin']; try done.
      * destruct Hnin'. by right.
      * apply elem_of_cons in Hin' as [->|?]; done.
Qed.

Lemma incr_NoDup d k :
  NoDup (Counter.keys d) -> NoDup (Counter.keys (Counter.incr d k)).
Proof.
  intros Hd. rewrite incr_setitem, keys_setitem.
  destruct (decide (k ∈ Counter.keys d)); [done|].
  apply NoDup_app. split_and!; [done| |apply NoDup_singleton].
  intros x Hx Hx'. apply list_elem_of_singleton in Hx' as ->. done.
Qed.

End CounterFacts.

(** ** The classifier, one line at a time *)

Lemma LOG_COLUMN_MAP_len : size LOG_COLUMN_MAP = 14%nat.
Proof. vm_compute. reflexivity. Qed.

Lemma LOG_COLUMN_MAP_dstport : getitem LOG_COLUMN_MAP "dstport" = Ok 5%nat.
Proof. vm_compute. reflexivity. Qed.

Lemma LOG_COLUMN_MAP_protocol : getitem LOG_COLUMN_MAP "protocol" = Ok 7%nat.
Proof. vm_compute. reflexivity. Qed.

Lemma index_lt {A} (xs : list A) (i : nat) :
  (i < List.length xs)%nat -> exists x, xs !! i = Some x /\ index xs i = Ok x.
Proof.
  intros Hi. destruct (lookup_lt_is_Some_2 xs i Hi) as [x Hx].
  exists x. unfold index. by rewrite Hx.
Qed.

(** A line with 14 fields is counted once in each counter, under the tag
    and the port/protocol pair the two tables give for its fields 5 and 7. *)
Lemma classify_line_14 lookup_dict protocol_mapping st line :
  List.length (PyStr.split line) = 14%nat ->
  exists dstport number,
    PyStr.split line !! 5%nat = Some dstport /\
    PyStr.split line !! 7%nat = Some number /\
    classify_line lookup_dict protocol_mapping st line
    = Ok (Counts
            (Counter.incr (tag_counts st)
               (default "Untagged"
                  (lookup_dict !!
                     (dstport, protocol_name protocol_mapping number))))
            (Counter.incr (port_protocol_counts st)
               (dstport, protocol_name protocol_mapping number))).
Proof.
  intros Hlen. unfold classify_line.
  rewrite LOG_COLUMN_MAP_len, Hlen, LOG_COLUMN_MAP_dstport,
    LOG_COLUMN_MAP_protocol.
  cbn [negb Nat.eqb rbind].
  destruct (index_lt (PyStr.split line) 5) as (dstport & H5 & ->); [lia|].
  destruct (index_lt (PyStr.split line) 7) as (number & H7 & ->); [lia|].
  exists dstport, number. by split_and!.
Qed.

Lemma classify_line_skip lookup_dict protocol_mapping st line :
  List.length (PyStr.split line) ≠ 14%nat ->
  classify_line lookup_dict protocol_mapping st line = Ok st.
Proof.
  intros Hlen. unfold classify_line. rewrite LOG_COLUMN_MAP_len.
  apply Nat.eqb_neq in Hlen. by rewrite Hlen.
Qed.

Lemma classify_line_skip_false lookup_dict protocol_mapping st line :
  has_14_fields line = false ->
  classify_line lookup_dict protocol_mapping st line = Ok st.
Proof.
  intros Hlen. apply classify_line_skip. by apply Nat.eqb_neq.
Qed.

(** The loop body never raises. *)
Lemma classify_line_total lookup_dict protocol_mapping st line :
  exists st', classify_line lookup_dict protocol_mapping st line = Ok st'.
Proof.
  destruct (decide (List.length (PyStr.split line) = 14%nat)) as [Hlen|Hlen].
  - destruct (classify_line_14 lookup_dict protocol_mapping st line Hlen)
      as (? & ? & _ & _ & ->). eauto.
  - rewrite classify_line_skip by done. eauto.
Qed.

(** C1. A line with exactly 14 fields adds one to exactly one entry of the
    tag counter and to exactly one entry of the port/protocol counter, the
    one keyed by the line's destination port (field 5) and the lowercase
    protocol name resolved from its protocol number (field 7); every other
    entry of both counters is as before. *)
Theorem valid_line_counted_once lookup_dict protocol_mapping st line :
  has_14_fields line = true ->
  exists dstport number tag st',
    PyStr.split line !! 5%nat = Some dstport /\
    PyStr.split line !! 7%nat = Some number /\
    tag = default "Untagged"
            (lookup_dict !! (dstport, protocol_name protocol_mapping number)) /\
    classify_line lookup_dict protocol_mapping st line = Ok st' /\
    Counter.get (tag_counts st') tag
      = Some (Counter.count (tag_counts st) tag + 1) /\
    (forall t, t ≠ tag ->
       Counter.get (tag_counts st') t = Counter.get (tag_counts st) t) /\
    Counter.get (port_protocol_counts st')
        (dstport, protocol_name protocol_mapping number)
      = Some (Counter.count (port_protocol_counts st)
                (dstport, protocol_name protocol_mapping number) + 1) /\
    (forall key, key ≠ (dstport, protocol_name protocol_mapping number) ->
       Counter.get (port_protocol_counts st') key
       = Counter.get (port_protocol_counts st) key).
Proof.
  intros Hlen. apply Nat.eqb_eq in Hlen.
  destruct (classify_line_14 lookup_dict protocol_mapping st line Hlen)
    as (dstport & number & H5 & H7 & Hst).
  eexists dstport, number, _, _.
  split_and!; [done|done|reflexivity|exact Hst|..]; simpl.
  - apply get_incr_eq.
  - intros t Ht. by apply get_incr_ne.
  - apply get_incr_eq.
  - intros key Hkey. by apply get_incr_ne.
Qed.

Lemma valid_line_counted_once_witness :
  has_14_fields line_25_tcp = true /\
  exists dstport number tag st',
    PyStr.split line_25_tcp !! 5%nat = Some dstport /\
    PyStr.split line_25_tcp !! 7%nat = Some number /\
    tag = default "Untagged"
            (sample_lookup !! (dstport, protocol_name sample_protocols number)) /\
    classify_line sample_lookup sample_protocols no_counts line_25_tcp
      = Ok st' /\
    Counter.get (tag_counts st') tag
      = Some (Counter.count (tag_counts no_counts) tag + 1) /\
    (forall t, t ≠ tag ->
       Counter.get (tag_counts st') t = Counter.get (tag_counts no_counts) t) /\
    Counter.get (port_protocol_counts st')
        (dstport, protocol_name sample_protocols number)
      = Some (Counter.count (port_protocol_counts no_counts)
                (dstport, protocol_name sample_protocols number) + 1) /\
    (forall key, key ≠ (dstport, protocol_name sample_protocols number) ->
       Counter.get (port_protocol_counts st') key
       = Counter.get (port_protocol_counts no_counts) key).
Proof.
  split; [reflexivity|].
  apply (valid_line_counted_once sample_lookup sample_protocols no_counts
           line_25_tcp).
  reflexivity.
Defined.

(** C2. A line whose field count is not 14 leaves both counters as they
    were, and the classifier goes on without an exception. *)
Theorem invalid_line_skipped lookup_dict protocol_mapping st line :
  has_14_fields line = false ->
  classify_line lookup_dict protocol_mapping st line = Ok st.
Proof.
  intros Hlen. apply classify_line_skip. by apply Nat.eqb_neq.
Qed.

Lemma invalid_line_skipped_witness :
  has_14_fields line_short = false /\
  classify_line sample_lookup sample_protocols
    (Counts [("sv_P1", 1)] [(("25", "tcp"), 1)]) line_short
  = Ok (Counts [("sv_P1", 1)] [(("25", "tcp"), 1)]).
Proof.
  split; [reflexivity|].
  apply (invalid_line_skipped sample_lookup sample_protocols
           (Counts [("sv_P1", 1)] [(("25", "tcp"), 1)]) line_short).
  reflexivity.
Defined.

(** C4. For a line with 14 fields whose protocol number is not a key of
    the protocol mapping, the protocol name is "undefined": the
    port/protocol counter grows at (destination port, "undefined"); and if
    that pair is not a key of the lookup table, the tag counter grows at
    "Untagged". *)
Theorem unknown_protocol_undefined lookup_dict protocol_mapping st line
    dstport number :
  has_14_fields line = true ->
  PyStr.split line !! 5%nat = Some dstport ->
  PyStr.split line !! 7%nat = Some number ->
  protocol_mapping !! number = None ->
  protocol_name protocol_mapping number = "undefined" /\
  exists st',
    classify_line lookup_dict protocol_mapping st line = Ok st' /\
    Counter.get (port_protocol_counts st') (dstport, "undefined")
      = Some (Counter.count (port_protocol_counts st)
                (dstport, "undefined") + 1) /\
    (forall key, key ≠ (dstport, "undefined") ->
       Counter.get (port_protocol_counts st') key
       = Counter.get (port_protocol_counts st) key) /\
    (lookup_dict !! (dstport, "undefined") = None ->
     Counter.get (tag_counts st') "Untagged"
       = Some (Counter.count (tag_counts st) "Untagged" + 1) /\
     forall t, t ≠ "Untagged" ->
       Counter.get (tag_counts st') t = Counter.get (tag_counts st) t).
Proof.
  intros Hlen H5 H7 Hnone. apply Nat.eqb_eq in Hlen.
  assert (Hname : protocol_name protocol_mapping number = "undefined").
  { unfold protocol_name. by rewrite Hnone. }
  split; [done|].
  destruct (classify_line_14 lookup_dict protocol_mapping st line Hlen)
    as (dstport' & number' & H5' & H7' & Hst).
  rewrite H5 in H5'. rewrite H7 in H7'.
  injection H5' as <-. injection H7' as <-.
  rewrite Hname in Hst. eexists. split; [exact Hst|]. simpl. split_and!.
  - apply get_incr_eq.
  - intros key Hkey. by apply get_incr_ne.
  - intros Hmiss. rewrite Hmiss. simpl. split.
    + apply get_incr_eq.
    + intros t Ht. by apply get_incr_ne.
Qed.

Lemma unknown_protocol_undefined_witness :
  has_14_fields line_80_unknown = true /\
  PyStr.split line_80_unknown !! 5%nat = Some "80" /\
  PyStr.split line_80_unknown !! 7%nat = Some "200" /\
  sample_protocols !! "200" = None /\
  sample_lookup !! ("80", "undefined") = None /\
  exists st',
    classify_line sample_lookup sample_protocols no_counts line_80_unknown
      = Ok st' /\
    Counter.get (port_protocol_counts st') ("80", "undefined") = Some 1 /\
    Counter.get (tag_counts st') "Untagged" = Some 1.
Proof.
  split_and!; try reflexivity.
  destruct (unknown_protocol_undefined sample_lookup sample_protocols
              no_counts line_80_unknown "80" "200")
    as (_ & st' & Hst & Hpp & _ & Htag); try reflexivity.
  exists st'. split_and!; [exact Hst|exact Hpp|].
  apply Htag. reflexivity.
Defined.

(** C5, as amended. For a line with 14 fields whose (destination port,
    resolved lowercase protocol name) pair is a key of the lookup table,
    the tag counter grows at exactly the tag the table gives for that key
    and at no other tag; so the entry "Untagged" is untouched unless the
    table itself gives the text "Untagged" as the tag. *)
Theorem present_pair_configured_tag lookup_dict protocol_mapping st line
    dstport number tag :
  has_14_fields line = true ->
  PyStr.split line !! 5%nat = Some dstport ->
  PyStr.split line !! 7%nat = Some number ->
  lookup_dict !! (dstport, protocol_name protocol_mapping number) = Some tag ->
  exists st',
    classify_line lookup_dict protocol_mapping st line = Ok st' /\
    Counter.get (tag_counts st') tag
      = Some (Counter.count (tag_counts st) tag + 1) /\
    (forall t, t ≠ tag ->
       Counter.get (tag_counts st') t = Counter.get (tag_counts st) t) /\
    (tag ≠ "Untagged" ->
     Counter.get (tag_counts st') "Untagged"
     = Counter.get (tag_counts st) "Untagged").
Proof.
  intros Hlen H5 H7 Htag. apply Nat.eqb_eq in Hlen.
  destruct (classify_line_14 lookup_dict protocol_mapping st line Hlen)
    as (dstport' & number' & H5' & H7' & Hst).
  rewrite H5 in H5'. rewrite H7 in H7'.
  injection H5' as <-. injection H7' as <-.
  rewrite Htag in Hst. eexists. split; [exact Hst|]. simpl. split_and!.
  - apply get_incr_eq.
  - intros t Ht. by apply get_incr_ne.
  - intros Hne. by apply get_incr_ne.
Qed.

Lemma present_pair_configured_tag_witness :
  has_14_fields line_25_tcp = true /\
  PyStr.split line_25_tcp !! 5%nat = Some "25" /\
  PyStr.split line_25_tcp !! 7%nat = Some "6" /\
  sample_lookup !! ("25", protocol_name sample_protocols "6") = Some "sv_P1" /\
  exists st',
    classify_line sample_lookup sample_protocols no_counts line_25_tcp
      = Ok st' /\
    Counter.get (tag_counts st') "sv_P1" = Some 1 /\
    Counter.get (tag_counts st') "Untagged" = None.
Proof.
  split_and!; try reflexivity.
  destruct (present_pair_configured_tag sample_lookup sample_protocols
              no_counts line_25_tcp "25" "6" "sv_P1")
    as (st' & Hst & Htag & _ & Hun); try reflexivity.
  exists st'. split_and!; [exact Hst|exact Htag|].
  apply Hun. discriminate.
Defined.

(** C5 as first stated fails: the pair ("25", "tcp") is a key of the lookup
    table, yet the line is counted at the entry "Untagged", because that
    is the tag text the table gives. *)
Lemma present_pair_counted_at_untagged :
  has_14_fields line_25_tcp = true /\
  PyStr.split line_25_tcp !! 5%nat = Some "25" /\
  PyStr.split line_25_tcp !! 7%nat = Some "6" /\
  is_Some (untagged_lookup !! ("25", protocol_name sample_protocols "6")) /\
  Counter.get (tag_counts no_counts) "Untagged" = None /\
  exists st',
    classify_line untagged_lookup sample_protocols no_counts line_25_tcp
      = Ok st' /\
    Counter.get (tag_counts st') "Untagged" = Some 1.
Proof.
  split_and!; try reflexivity.
  - exists "Untagged". reflexivity.
  - eexists. split; reflexivity.
Qed.

(** ** The classifier, over a whole log *)

Section WholeLog.
Variable lookup_dict : gmap (string * string) string.
Variable protocol_mapping : gmap string string.

(** From any counters, the loop ends normally; each counter's total has
    grown by the number of 14-field lines. *)
Lemma for_each_classify_total lines st :
  exists c,
    for_each (classify_line lookup_dict protocol_mapping) lines st = Ok c /\
    Counter.total (tag_counts c)
    = Counter.total (tag_counts st)
      + Z.of_nat (List.length (List.filter has_14_fields lines)) /\
    Counter.total (port_protocol_counts c)
    = Counter.total (port_protocol_counts st)
      + Z.of_nat (List.length (List.filter has_14_fields lines)).
Proof.
  revert st. induction lines as [|line lines IH]; intros st.
  - exists st. simpl. split_and!; [done|lia|lia].
  - simpl. destruct (has_14_fields line) eqn:Hlen.
    + apply Nat.eqb_eq in Hlen.
      destruct (classify_line_14 lookup_dict protocol_mapping st line Hlen)
        as (dstport & number & _ & _ & ->).
      cbn [rbind]. destruct (IH (Counts
        (Counter.incr (tag_counts st)
           (default "Untagged"
              (lookup_dict !!
                 (dstport, protocol_name protocol_mapping number))))
        (Counter.incr (port_protocol_counts st)
           (dstport, protocol_name protocol_mapping number))))
        as (c & -> & Ht & Hp).
      exists c. simpl in Ht, Hp. rewrite total_incr in Ht. rewrite total_incr in Hp.
      split_and!; [done|..]; cbn [List.length]; lia.
    + rewrite classify_line_skip_false by done. cbn [rbind].
      destruct (IH st) as (c & -> & Ht & Hp). by exists c.
Qed.

(** From counters whose entries are all at least one, and that have one
    entry per key, the loop ends with such counters. *)
Lemma for_each_classify_positive lines st :
  Forall (fun e => 1 <= e.2) (tag_counts st) ->
  Forall (fun e => 1 <= e.2) (port_protocol_counts st) ->
  exists c,
    for_each (classify_line lookup_dict protocol_mapping) lines st = Ok c /\
    Forall (fun e => 1 <= e.2) (tag_counts c) /\
    Forall (fun e => 1 <= e.2) (port_protocol_counts c).
Proof.
  revert st. induction lines as [|line lines IH]; intros st Ht Hp.
  - by exists st.
  - simpl. destruct (has_14_fields line) eqn:Hlen.
    + apply Nat.eqb_eq in Hlen.
      destruct (classify_line_14 lookup_dict protocol_mapping st line Hlen)
        as (dstport & number & _ & _ & ->).
      cbn [rbind]. apply IH; simpl; by apply incr_positive.
    + rewrite classify_line_skip_false by done. cbn [rbind]. by apply IH.
Qed.

Lemma for_each_classify_NoDup lines st :
  NoDup (Counter.keys (tag_counts st)) ->
  NoDup (Counter.keys (port_protocol_counts st)) ->
  exists c,
    for_each (classify_line lookup_dict protocol_mapping) lines st = Ok c /\
    NoDup (Counter.keys (tag_counts c)) /\
    NoDup (Counter.keys (port_protocol_counts c)).
Proof.
  revert st. induction lines as [|line lines IH]; intros st Ht Hp.
  - by exists st.
  - simpl. destruct (has_14_fields line) eqn:Hlen.
    + apply Nat.eqb_eq in Hlen.
      destruct (classify_line_14 lookup_dict protocol_mapping st line Hlen)
        as (dstport & number & _ & _ & ->).
      cbn [rbind]. apply IH; simpl; by apply incr_NoDup.
    + rewrite classify_line_skip_false by done. cbn [rbind]. by apply IH.
Qed.

End WholeLog.

Lemma parse_flow_lines_total lines lookup_dict protocol_mapping :
  exists c, parse_flow_lines lines lookup_dict protocol_mapping = Ok c.
Proof.
  destruct (for_each_classify_total lookup_dict protocol_mapping lines
              no_counts) as (c & Hc & _). by exists c.
Qed.

(** C3. Whatever the lines of the log, the classifier ends normally, and
    the tag counts and the port/protocol counts both sum to the number of
    lines that have exactly 14 fields. *)
Theorem totals_equal_valid_lines lines lookup_dict protocol_mapping :
  exists c,
    parse_flow_lines lines lookup_dict protocol_mapping = Ok c /\
    Counter.total (tag_counts c) = Counter.total (port_protocol_counts c) /\
    Counter.total (port_protocol_counts c)
    = Z.of_nat (List.length (List.filter has_14_fields lines)).
Proof.
  destruct (for_each_classify_total lookup_dict protocol_mapping lines
              no_counts) as (c & Hc & Ht & Hp).
  exists c. split; [exact Hc|].
  change (Counter.total (tag_counts no_counts)) with 0 in Ht.
  change (Counter.total (port_protocol_counts no_counts)) with 0 in Hp.
  lia.
Qed.

(** C10. Whatever the lines of the log, every entry of either counter
    holds a count of at least one, so no row of the report shows the
    count 0. *)
Theorem no_zero_count lines lookup_dict protocol_mapping :
  exists c,
    parse_flow_lines lines lookup_dict protocol_mapping = Ok c /\
    (forall tag n, (tag, n) ∈ tag_counts c ->
       1 <= n /\ PyStr.of_int n ≠ "0") /\
    (forall key n, (key, n) ∈ port_protocol_counts c ->
       1 <= n /\ PyStr.of_int n ≠ "0") /\
    (forall tag n, Counter.get (tag_counts c) tag = Some n -> 1 <= n) /\
    (forall key n,
       Counter.get (port_protocol_counts c) key = Some n -> 1 <= n).
Proof.
  destruct (for_each_classify_positive lookup_dict protocol_mapping lines
              no_counts) as (c & Hc & Ht & Hp); [constructor|constructor|].
  assert (Hnz : forall n, 1 <= n -> PyStr.of_int n ≠ "0").
  { intros n Hn H0. change "0" with (pretty 0) in H0.
    apply (inj pretty) in H0. lia. }
  rewrite Forall_forall in Ht. rewrite Forall_forall in Hp.
  exists c. split_and!; [exact Hc|..].
  - intros tag n Hin. specialize (Ht _ Hin). simpl in Ht. auto.
  - intros key n Hin. specialize (Hp _ Hin). simpl in Hp. auto.
  - intros tag n Hg. apply get_Some_elem in Hg. apply (Ht _ Hg).
  - intros key n Hg. apply get_Some_elem in Hg. apply (Hp _ Hg).
Qed.

(** The same over the file: when the flow log can be opened, the run of
    [parse_flow_logs] ends normally with these totals. *)
Lemma parse_flow_logs_totals fs flow_log_file text lookup_dict
    protocol_mapping :
  fs !! flow_log_file = Some text ->
  exists c,
    parse_flow_logs fs flow_log_file lookup_dict protocol_mapping = Ok c /\
    Counter.total (tag_counts c)
    = Z.of_nat (List.length (List.filter has_14_fields (File.lines text))) /\
    Counter.total (port_protocol_counts c)
    = Z.of_nat (List.length (List.filter has_14_fields (File.lines text))).
Proof.
  intros Hfile. unfold parse_flow_logs, File.read. rewrite Hfile. cbn [rbind].
  destruct (for_each_classify_total lookup_dict protocol_mapping
              (File.lines text) no_counts) as (c & Hc & Ht & Hp).
  exists c. split; [exact Hc|].
  change (Counter.total (tag_counts no_counts)) with 0 in Ht.
  change (Counter.total (port_protocol_counts no_counts)) with 0 in Hp.
  split; lia.
Qed.

(** The counters the classifier returns have one entry per key. *)
Lemma parse_flow_lines_NoDup lines lookup_dict protocol_mapping :
  exists c,
    parse_flow_lines lines lookup_dict protocol_mapping = Ok c /\
    NoDup (Counter.keys (tag_counts c)) /\
    NoDup (Counter.keys (port_protocol_counts c)).
Proof.
  apply for_each_classify_NoDup; apply NoDup_nil_2.
Qed.

Example parse_flow_lines_example :
  parse_flow_lines
    [line_25_tcp; line_short; line_80_unknown; line_25_tcp]
    sample_lookup sample_protocols
  = Ok (Counts [("sv_P1", 2); ("Untagged", 1)]
               [(("25", "tcp"), 2); (("80", "undefined"), 1)]).
Proof. vm_compute. reflexivity. Qed.

(** ** The report writer *)

Lemma append_cons (x : ascii) (a b : string) :
  String x a +:+ b = String x (a +:+ b).
Proof. reflexivity. Qed.

Lemma append_empty_r (a : string) : a +:+ "" = a.
Proof. induction a as [|x a IH]; [done|]. by rewrite append_cons, IH. Qed.

Lemma append_assoc (a b c : string) : (a +:+ b) +:+ c = a +:+ (b +:+ c).
Proof. induction a as [|x a IH]; [done|]. by rewrite !append_cons, IH. Qed.

(** A loop of [file.write] calls appends the written texts in order. *)
Lemma foldl_write {A} (text : A -> string) (entries : list A) (file : string) :
  foldl (fun file entry => write file (text entry)) file entries
  = file +:+ concat_text (map text entries).
Proof.
  revert file. induction entries as [|e entries IH]; intros file; simpl.
  - by rewrite append_empty_r.
  - rewrite IH. unfold write. apply append_assoc.
Qed.

(** C6. For any two counters the report is the heading of the tag section,
    one line "tag,count" per entry of the tag counter in insertion order,
    a blank line, the heading of the port/protocol section, and one line
    "port,protocol,count" per entry of the port/protocol counter in
    insertion order; for the counters of the spec's example it is the
    report the spec shows. *)
Theorem write_output_text :
  (forall (tag_counts : list (string * Z))
          (port_protocol_counts : list ((string * string) * Z)),
     write_output tag_counts port_protocol_counts
     = "Tag Counts:
Tag,Count
"
       +:+ concat_text
             (map (fun '(tag, count) =>
                     tag +:+ "," +:+ PyStr.of_int count +:+ "
") tag_counts)
       +:+ "
" +:+ "Port/Protocol Combination Counts:
Port,Protocol,Count
"
       +:+ concat_text
             (map (fun '((port, protocol), count) =>
                     port +:+ "," +:+ protocol +:+ ","
                          +:+ PyStr.of_int count +:+ "
") port_protocol_counts)) /\
  write_output [("sv_P1", 2); ("Untagged", 1)]
               [(("23", "tcp"), 2); (("999", "udp"), 1)]
  = "Tag Counts:
Tag,Count
sv_P1,2
Untagged,1

Port/Protocol Combination Counts:
Port,Protocol,Count
23,tcp,2
999,udp,1
".
Proof.
  split; [|vm_compute; reflexivity].
  intros tc ppc. unfold write_output. rewrite !foldl_write.
  unfold write. rewrite !append_assoc.
  rewrite (map_ext tag_line
             (fun '(tag, count) => tag +:+ "," +:+ PyStr.of_int count +:+ "
")) by (by intros [tag count]).
  rewrite (map_ext port_protocol_line
             (fun '((port, protocol), count) =>
                port +:+ "," +:+ protocol +:+ ","
                     +:+ PyStr.of_int count +:+ "
")) by (by intros [[port protocol] count]).
  reflexivity.
Qed.

(** ** The loaders *)

Lemma for_each_app {A S} (body : S -> A -> result S) (xs ys : list A)
    (st st' : S) :
  for_each body (xs ++ ys)%list st = Ok st' ->
  exists mid, for_each body xs st = Ok mid /\ for_each body ys mid = Ok st'.
Proof.
  revert st. induction xs as [|x xs IH]; intros st; simpl.
  - intros Hys. by exists st.
  - destruct (body st x) as [st1|e]; simpl; [apply IH|done].
Qed.

(** A loop whose body stores one entry per row: the row of a key that no
    later row repeats decides the value of that key. *)
Section LastWins.
Context {K V R : Type} `{Countable K}.
Variable entry : R -> option (K * V).
Variable body : gmap K V -> R -> result (gmap K V).
Hypothesis body_Ok : forall m r m',
  body m r = Ok m' -> exists k v, entry r = Some (k, v) /\ m' = <[k := v]> m.

Lemma for_each_other_keys (rows : list R) (m m' : gmap K V) (k : K) :
  for_each body rows m = Ok m' ->
  Forall (fun r => fst <$> entry r ≠ Some k) rows ->
  m' !! k = m !! k.
Proof.
  revert m. induction rows as [|r rows IH]; intros m; simpl.
  - by intros [= ->].
  - intros Hrun Hrows. apply Forall_cons in Hrows as [Hr Hrows].
    destruct (body m r) as [m1|e] eqn:Hbody; simpl in Hrun; [|done].
    apply body_Ok in Hbody as (k1 & v1 & Hentry & ->).
    rewrite (IH _ Hrun Hrows). apply lookup_insert_ne.
    intros ->. apply Hr. by rewrite Hentry.
Qed.

Lemma for_each_last_wins (pre post : list R) (r : R) (m0 m : gmap K V)
    (k : K) (v : V) :
  for_each body (pre ++ r :: post)%list m0 = Ok m ->
  entry r = Some (k, v) ->
  Forall (fun r' => fst <$> entry r' ≠ Some k) post ->
  m !! k = Some v.
Proof.
  intros Hrun Hentry Hpost.
  apply for_each_app in Hrun as (m1 & _ & Hrun). simpl in Hrun.
  destruct (body m1 r) as [m2|e] eqn:Hbody; simpl in Hrun; [|done].
  apply body_Ok in Hbody as (k' & v' & Hentry' & ->).
  rewrite Hentry in Hentry'. injection Hentry' as <- <-.
  rewrite (for_each_other_keys _ _ _ _ Hrun Hpost).
  apply lookup_insert_eq.
Qed.

End LastWins.

Lemma getitem_strip_Ok (row : gmap string (option string)) (name s : string) :
  rbind (getitem row name) Csv.strip = Ok s -> field row name = Some s.
Proof.
  unfold getitem, field. destruct (row !! name) as [[t|]|]; simpl; congruence.
Qed.

Lemma protocol_row_Ok m row m' :
  protocol_row m row = Ok m' ->
  exists k v, protocol_entry row = Some (k, v) /\ m' = <[k := v]> m.
Proof.
  unfold protocol_row, protocol_entry, field, getitem.
  destruct (row !! "Decimal") as [[d|]|]; simpl; try done.
  destruct (row !! "Keyword") as [[w|]|]; simpl; try done.
  intros [= <-]. eauto.
Qed.

Lemma lookup_row_Ok m row m' :
  lookup_row m row = Ok m' ->
  exists k v, lookup_entry row = Some (k, v) /\ m' = <[k := v]> m.
Proof.
  unfold lookup_row, lookup_entry, field, getitem.
  destruct (row !! "dstport") as [[d|]|]; simpl; try done.
  destruct (row !! "protocol") as [[p|]|]; simpl; try done.
  destruct (row !! "tag") as [[t|]|]; simpl; try done.
  intros [= <-]. eauto.
Qed.

(** C7. In either reference table, when several rows give the same key,
    the loaded mapping holds for that key the value of the last of them:
    the value of a row that no later row repeats the key of. *)
Theorem last_duplicate_wins :
  (forall rows m pre row post number name,
     load_protocol_rows rows = Ok m ->
     Csv.dict_rows rows = (pre ++ row :: post)%list ->
     protocol_entry row = Some (number, name) ->
     Forall (fun r => fst <$> protocol_entry r ≠ Some number) post ->
     m !! number = Some name) /\
  (forall rows m pre row post key tag,
     load_lookup_rows rows = Ok m ->
     Csv.dict_rows rows = (pre ++ row :: post)%list ->
     lookup_entry row = Some (key, tag) ->
     Forall (fun r => fst <$> lookup_entry r ≠ Some key) post ->
     m !! key = Some tag).
Proof.
  split.
  - intros rows m pre row post number name Hload Hrows Hentry Hpost.
    unfold load_protocol_rows in Hload. rewrite Hrows in Hload.
    exact (for_each_last_wins protocol_entry protocol_row protocol_row_Ok
             _ _ _ _ _ _ _ Hload Hentry Hpost).
  - intros rows m pre row post key tag Hload Hrows Hentry Hpost.
    unfold load_lookup_rows in Hload. rewrite Hrows in Hload.
    exact (for_each_last_wins lookup_entry lookup_row lookup_row_Ok
             _ _ _ _ _ _ _ Hload Hentry Hpost).
Qed.

Lemma last_duplicate_wins_witness :
  (exists m, load_protocol_rows duplicate_protocol_rows = Ok m /\
             m !! "6" = Some "TCP-NEW") /\
  (exists m, load_lookup_rows duplicate_lookup_rows = Ok m /\
             m !! ("25", "tcp") = Some "sv_P9").
Proof.
  split.
  - exists (<["17" := "UDP"]> (<["6" := "TCP-NEW"]> ∅)).
    split; [vm_compute; reflexivity|].
    apply (proj1 last_duplicate_wins duplicate_protocol_rows _
             [Csv.make_row ["Decimal"; "Keyword"] ["6"; "TCP"]]
             (Csv.make_row ["Decimal"; "Keyword"] [" 6"; "TCP-NEW"])
             [Csv.make_row ["Decimal"; "Keyword"] ["17"; "UDP"]]
             "6" "TCP-NEW");
      [vm_compute; reflexivity|reflexivity|vm_compute; reflexivity|].
    repeat constructor. vm_compute. discriminate.
  - exists (<[("68", "udp") := "sv_P2"]> (<[("25", "tcp") := "sv_P9"]> ∅)).
    split; [vm_compute; reflexivity|].
    apply (proj2 last_duplicate_wins duplicate_lookup_rows _
             [Csv.make_row ["dstport"; "protocol"; "tag"] ["25"; "tcp"; "sv_P1"]]
             (Csv.make_row ["dstport"; "protocol"; "tag"] ["25"; "TCP "; "sv_P9"])
             [Csv.make_row ["dstport"; "protocol"; "tag"] ["68"; "udp"; "sv_P2"]]
             ("25", "tcp") "sv_P9");
      [vm_compute; reflexivity|reflexivity|vm_compute; reflexivity|].
    repeat constructor. vm_compute. discriminate.
Defined.

(** *** Lower case on both sides of the lookup *)

Lemma lower_char_idem (c : ascii) :
  PyStr.lower_char (PyStr.lower_char c) = PyStr.lower_char c.
Proof. destruct c as [[] [] [] [] [] [] [] []]; reflexivity. Qed.

Lemma lower_idem (s : string) : PyStr.lower (PyStr.lower s) = PyStr.lower s.
Proof.
  induction s as [|c s IH]; simpl; [done|]. by rewrite lower_char_idem, IH.
Qed.

Lemma for_each_invariant {A S} (P : S -> Prop) (body : S -> A -> result S)
    (xs : list A) (st st' : S) :
  (forall s x s', P s -> body s x = Ok s' -> P s') ->
  P st -> for_each body xs st = Ok st' -> P st'.
Proof.
  intros Hbody. revert st. induction xs as [|x xs IH]; intros st Hst; simpl.
  - by intros [= <-].
  - destruct (body st x) as [s1|e] eqn:Hx; simpl; [|done].
    apply IH. by eapply Hbody.
Qed.

(** Every key of the loaded lookup table has its protocol in lower case,
    as has every protocol name the classifier looks up. *)
Lemma lookup_keys_lower rows m dstport protocol tag :
  load_lookup_rows rows = Ok m ->
  m !! (dstport, protocol) = Some tag ->
  PyStr.lower protocol = protocol.
Proof.
  intros Hload. revert dstport protocol tag.
  refine (for_each_invariant
            (fun m : gmap (string * string) string =>
               forall d p t, m !! (d, p) = Some t -> PyStr.lower p = p)
            lookup_row _ ∅ m _ _ Hload).
  - intros s row s' Hs Hrow d p t.
    apply lookup_row_Ok in Hrow as ([d1 p1] & t1 & Hentry & ->).
    rewrite lookup_insert_Some. intros [[[= <- <-] _]|[_ Hold]].
    + unfold lookup_entry in Hentry.
      destruct (field row "dstport"), (field row "protocol"),
        (field row "tag"); try done.
      injection Hentry as <- <- <-. apply lower_idem.
    + by eapply Hs.
  - intros d p t. by rewrite lookup_empty.
Qed.

Lemma protocol_name_lower protocol_mapping number :
  PyStr.lower (protocol_name protocol_mapping number)
  = protocol_name protocol_mapping number.
Proof. apply lower_idem. Qed.

(** *** Tables with a column missing *)

Lemma zip_fst_take {A B} (xs : list A) (ys : list B) :
  (zip xs ys).*1 = take (List.length ys) xs.
Proof.
  revert ys. induction xs as [|x xs IH]; intros [|y ys]; csimpl; [done..|].
  by rewrite IH.
Qed.

Lemma foldl_insert_Some_None (kvs : list (string * string))
    (d : gmap string (option string)) (c : string) :
  foldl (fun d kv => <[kv.1 := Some kv.2]> d) d kvs !! c = None
  <-> (c ∉ kvs.*1) /\ d !! c = None.
Proof.
  revert d. induction kvs as [|[k v] kvs IH]; intros d; csimpl.
  - split; [intros ?; split; [apply not_elem_of_nil|done]|by intros [_ ?]].
  - rewrite IH, lookup_insert_None, not_elem_of_cons. intuition congruence.
Qed.

Lemma foldl_insert_None_None (ks : list string)
    (d : gmap string (option string)) (c : string) :
  foldl (fun d key => <[key := None]> d) d ks !! c = None
  <-> (c ∉ ks) /\ d !! c = None.
Proof.
  revert d. induction ks as [|k ks IH]; intros d; csimpl.
  - split; [intros ?; split; [apply not_elem_of_nil|done]|by intros [_ ?]].
  - rewrite IH, lookup_insert_None, not_elem_of_cons. intuition congruence.
Qed.

(** The row dictionary has exactly the names of the header as keys. *)
Lemma make_row_None (header fields : list string) (c : string) :
  Csv.make_row header fields !! c = None <-> c ∉ header.
Proof.
  unfold Csv.make_row.
  rewrite foldl_insert_None_None, foldl_insert_Some_None, zip_fst_take.
  rewrite lookup_empty.
  rewrite <- (take_drop (List.length fields) header) at 3.
  rewrite not_elem_of_app. tauto.
Qed.

Lemma first_failure_exists (row : gmap string (option string))
    (required : list string) :
  (exists c, c ∈ required /\ row !! c = None) ->
  exists e, first_failure row required = Some e.
Proof.
  intros (c & Hc & Hnone). induction required as [|c0 required IH].
  - by apply elem_of_nil in Hc.
  - cbn [first_failure]. destruct (row !! c0) as [[s|]|] eqn:Hc0; eauto.
    apply IH. apply elem_of_cons in Hc as [->|?]; [congruence|done].
Qed.

Lemma first_failure_KeyError (row : gmap string (option string))
    (required : list string) (c : string) :
  first_failure row required = Some (KeyError c) ->
  c ∈ required /\ row !! c = None.
Proof.
  induction required as [|c0 required IH]; [done|]. cbn [first_failure].
  destruct (row !! c0) as [[s|]|] eqn:Hc0.
  - intros Hrest. destruct (IH Hrest). split; [by right|done].
  - done.
  - intros [= <-]. split; [left|done].
Qed.

Lemma first_failure_AttributeError (row : gmap string (option string))
    (required : list string) :
  first_failure row required = Some AttributeError ->
  exists c, c ∈ required /\ row !! c = Some None.
Proof.
  induction required as [|c0 required IH]; [done|]. cbn [first_failure].
  destruct (row !! c0) as [[s|]|] eqn:Hc0.
  - intros Hrest. destruct (IH Hrest) as (c & ? & ?).
    exists c. split; [by right|done].
  - intros _. exists c0. split; [left|done].
  - done.
Qed.

(** The loop bodies raise what [first_failure] says. *)
Lemma protocol_row_first_failure m row e :
  first_failure row ["Decimal"; "Keyword"] = Some e ->
  protocol_row m row = Raise e.
Proof.
  unfold protocol_row, getitem. cbn [first_failure].
  destruct (row !! "Decimal") as [[d|]|]; simpl; [|congruence..].
  destruct (row !! "Keyword") as [[w|]|]; simpl; congruence.
Qed.

Lemma lookup_row_first_failure m row e :
  first_failure row ["dstport"; "protocol"; "tag"] = Some e ->
  lookup_row m row = Raise e.
Proof.
  unfold lookup_row, getitem. cbn [first_failure].
  destruct (row !! "dstport") as [[d|]|]; simpl; [|congruence..].
  destruct (row !! "protocol") as [[p|]|]; simpl; [|congruence..].
  destruct (row !! "tag") as [[t|]|]; simpl; congruence.
Qed.

Lemma fails_at_row_intro {A} (required header fields : list string)
    (r : result A) (e : exn) :
  first_failure (Csv.make_row header fields) required = Some e ->
  r = Raise e ->
  fails_at_row required header fields r.
Proof.
  intros Hfirst ->. exists e. split_and!; [done|done| |].
  - intros c ->. apply first_failure_KeyError in Hfirst as [Hc Hnone].
    split; [done|]. by apply make_row_None in Hnone.
  - intros ->. apply first_failure_AttributeError in Hfirst as (c & Hc & Hrow).
    exists c. split_and!; [done| |done].
    destruct (decide (c ∈ header)) as [|Hnot]; [done|].
    apply (make_row_None header fields) in Hnot. congruence.
Qed.

Lemma lacks_column_first_failure (required header fields : list string) :
  lacks_column required header ->
  exists e, first_failure (Csv.make_row header fields) required = Some e.
Proof.
  intros (c & Hc & Hmiss). apply first_failure_exists.
  exists c. split; [done|]. by apply make_row_None.
Qed.

Lemma load_protocol_rows_fails header body row rest :
  lacks_column ["Decimal"; "Keyword"] header ->
  List.filter Csv.nonblank body = row :: rest ->
  exists e,
    first_failure (Csv.make_row header row) ["Decimal"; "Keyword"] = Some e /\
    load_protocol_rows (header :: body) = Raise e.
Proof.
  intros Hlacks Hbody.
  destruct (lacks_column_first_failure _ header row Hlacks) as (e & He).
  exists e. split; [done|].
  unfold load_protocol_rows, Csv.dict_rows. rewrite Hbody.
  cbn [map for_each]. by rewrite (protocol_row_first_failure _ _ e He).
Qed.

Lemma load_lookup_rows_fails header body row rest :
  lacks_column ["dstport"; "protocol"; "tag"] header ->
  List.filter Csv.nonblank body = row :: rest ->
  exists e,
    first_failure (Csv.make_row header row) ["dstport"; "protocol"; "tag"]
      = Some e /\
    load_lookup_rows (header :: body) = Raise e.
Proof.
  intros Hlacks Hbody.
  destruct (lacks_column_first_failure _ header row Hlacks) as (e & He).
  exists e. split; [done|].
  unfold load_lookup_rows, Csv.dict_rows. rewrite Hbody.
  cbn [map for_each]. by rewrite (lookup_row_first_failure _ _ e He).
Qed.

(** C9, as amended. When the header of a reference table lacks a required
    column and the table has a row after the header that is not blank, the
    loader raises at the first such row and returns no mapping. The
    exception is the one of the first required column, in the order the
    loader reads them, for which that row has no value: a [KeyError] for a
    required column the header lacks, or an [AttributeError] where the
    header has the column and the short row ends before it, which can only
    be a column read before the lacking one. The run aborts with it: [main]
    raises the exception of the protocol table, and that of the lookup
    table once the protocol table has loaded. *)
Theorem missing_column_fails :
  (forall header body row rest,
     lacks_column ["Decimal"; "Keyword"] header ->
     List.filter Csv.nonblank body = row :: rest ->
     fails_at_row ["Decimal"; "Keyword"] header row
       (load_protocol_rows (header :: body))) /\
  (forall header body row rest,
     lacks_column ["dstport"; "protocol"; "tag"] header ->
     List.filter Csv.nonblank body = row :: rest ->
     fails_at_row ["dstport"; "protocol"; "tag"] header row
       (load_lookup_rows (header :: body))) /\
  (forall (csv_reader : string -> list (list string))
          (fs : gmap string string) text header body row rest,
     fs !! "inputfiles/protocol_number_mapping.csv" = Some text ->
     csv_reader text = header :: body ->
     lacks_column ["Decimal"; "Keyword"] header ->
     List.filter Csv.nonblank body = row :: rest ->
     fails_at_row ["Decimal"; "Keyword"] header row (main csv_reader fs)) /\
  (forall (csv_reader : string -> list (list string))
          (fs : gmap string string) text header body row rest,
     fs !! "inputfiles/lookup_table_refer.csv" = Some text ->
     csv_reader text = header :: body ->
     lacks_column ["dstport"; "protocol"; "tag"] header ->
     List.filter Csv.nonblank body = row :: rest ->
     (exists e, main csv_reader fs = Raise e) /\
     (forall protocol_mapping,
        load_protocol_mapping csv_reader fs
          "inputfiles/protocol_number_mapping.csv" = Ok protocol_mapping ->
        fails_at_row ["dstport"; "protocol"; "tag"] header row
          (main csv_reader fs))).
Proof.
  split_and!.
  - intros header body row rest Hlacks Hbody.
    destruct (load_protocol_rows_fails header body row rest Hlacks Hbody)
      as (e & He & Hload).
    by apply (fails_at_row_intro _ _ _ _ e).
  - intros header body row rest Hlacks Hbody.
    destruct (load_lookup_rows_fails header body row rest Hlacks Hbody)
      as (e & He & Hload).
    by apply (fails_at_row_intro _ _ _ _ e).
  - intros csv_reader fs text header body row rest Hfile Hcsv Hlacks Hbody.
    destruct (load_protocol_rows_fails header body row rest Hlacks Hbody)
      as (e & He & Hload).
    apply (fails_at_row_intro _ _ _ _ e He).
    unfold main, load_protocol_mapping, File.read.
    rewrite Hfile. cbn [rbind]. by rewrite Hcsv, Hload.
  - intros csv_reader fs text header body row rest Hfile Hcsv Hlacks Hbody.
    destruct (load_lookup_rows_fails header body row rest Hlacks Hbody)
      as (e & He & Hload).
    assert (Hlookup : load_lookup_table csv_reader fs
                        "inputfiles/lookup_table_refer.csv" = Raise e).
    { unfold load_lookup_table, File.read.
      rewrite Hfile. cbn [rbind]. by rewrite Hcsv. }
    split.
    + unfold main.
      destruct (load_protocol_mapping _ _ _) as [pm|e1]; cbn [rbind];
        [|by eauto].
      rewrite Hlookup. cbn [rbind]. eauto.
    + intros pm Hpm. apply (fails_at_row_intro _ _ _ _ e He).
      unfold main. rewrite Hpm. cbn [rbind]. by rewrite Hlookup.
Qed.

Lemma missing_column_fails_witness :
  load_protocol_rows [["Number"; "Keyword"]; []; ["6"; "TCP"]]
    = Raise (KeyError "Decimal") /\
  load_lookup_rows [["tag"; "protocol"]; ["sv_P1"]]
    = Raise (KeyError "dstport") /\
  load_lookup_rows [["dstport"; "protocol"]; ["25"]]
    = Raise AttributeError /\
  main PlainCsv.reader bad_protocol_files = Raise (KeyError "Decimal") /\
  main PlainCsv.reader bad_lookup_files = Raise (KeyError "tag").
Proof.
  split_and!.
  - destruct (proj1 missing_column_fails ["Number"; "Keyword"]
                [[]; ["6"; "TCP"]] ["6"; "TCP"] [])
      as (e & -> & He & _).
    + exists "Decimal". split; [in_columns|not_in_columns].
    + reflexivity.
    + vm_compute in He. by injection He as <-.
  - destruct (proj1 (proj2 missing_column_fails) ["tag"; "protocol"]
                [["sv_P1"]] ["sv_P1"] [])
      as (e & -> & He & _).
    + exists "dstport". split; [in_columns|not_in_columns].
    + reflexivity.
    + vm_compute in He. by injection He as <-.
  - destruct (proj1 (proj2 missing_column_fails) ["dstport"; "protocol"]
                [["25"]] ["25"] [])
      as (e & -> & He & _).
    + exists "tag". split; [in_columns|not_in_columns].
    + reflexivity.
    + vm_compute in He. by injection He as <-.
  - destruct (proj1 (proj2 (proj2 missing_column_fails)) PlainCsv.reader
                bad_protocol_files "Number,Keyword
6,TCP
" ["Number"; "Keyword"] [["6"; "TCP"]] ["6"; "TCP"] [])
      as (e & -> & He & _).
    + vm_compute. reflexivity.
    + vm_compute. reflexivity.
    + exists "Decimal". split; [in_columns|not_in_columns].
    + reflexivity.
    + vm_compute in He. by injection He as <-.
  - destruct (proj2 (proj2 (proj2 missing_column_fails)) PlainCsv.reader
                bad_lookup_files "dstport,protocol

25,tcp
" ["dstport"; "protocol"] [[]; ["25"; "tcp"]] ["25"; "tcp"] [])
      as (_ & Hmain).
    + vm_compute. reflexivity.
    + vm_compute. reflexivity.
    + exists "tag". split; [in_columns|not_in_columns].
    + reflexivity.
    + destruct (Hmain (<["17" := "UDP"]> (<["6" := "TCP"]> ∅)))
        as (e & -> & He & _).
      * vm_compute. reflexivity.
      * vm_compute in He. by injection He as <-.
Defined.

(** C9 as first stated fails: with no row after the header, or only blank
    ones, nothing is subscripted, and a table whose header lacks a
    required column loads as the empty mapping. *)
Lemma missing_column_without_rows_loads :
  lacks_column ["Decimal"; "Keyword"] ["Number"; "Keyword"] /\
  load_protocol_rows [["Number"; "Keyword"]] = Ok ∅ /\
  lacks_column ["dstport"; "protocol"; "tag"] ["dstport"; "protocol"] /\
  load_lookup_rows [["dstport"; "protocol"]; []] = Ok ∅.
Proof.
  split_and!; try reflexivity.
  - exists "Decimal". split; [in_columns|not_in_columns].
  - exists "tag". split; [in_columns|not_in_columns].
Qed.

(** ** The whole run *)

Lemma same_inputs_lookup fs1 fs2 path :
  same_inputs fs1 fs2 -> path ∈ input_files -> fs1 !! path = fs2 !! path.
Proof. intros Hsame. apply Hsame. Qed.

(** C8. The report of a run is decided by the three input files alone:
    two runs on file stores that hold the same protocol table, lookup
    table and flow log end alike, with the same text in the output file or
    with the same exception, whatever else the stores hold (an earlier
    report included). *)
Theorem run_deterministic (csv_reader : string -> list (list string))
    (fs1 fs2 : gmap string string) :
  same_inputs fs1 fs2 ->
  report (main csv_reader fs1) = report (main csv_reader fs2).
Proof.
  intros Hsame.
  unfold report, main, load_protocol_mapping, load_lookup_table,
    parse_flow_logs, File.read.
  rewrite !(same_inputs_lookup fs1 fs2 _ Hsame) by in_columns.
  destruct (fs2 !! "inputfiles/protocol_number_mapping.csv"); [|done].
  cbn [rbind]. destruct (load_protocol_rows _); [|done].
  cbn [rbind]. destruct (fs2 !! "inputfiles/lookup_table_refer.csv"); [|done].
  cbn [rbind]. destruct (load_lookup_rows _); [|done].
  cbn [rbind]. destruct (fs2 !! "inputfiles/flow_log_data.txt"); [|done].
  cbn [rbind]. destruct (parse_flow_lines _ _ _); [|done].
  cbn [rbind]. by rewrite !lookup_insert_eq.
Qed.

Lemma run_deterministic_witness :
  same_inputs sample_files stale_files /\
  report (main PlainCsv.reader sample_files)
  = report (main PlainCsv.reader stale_files) /\
  report (main PlainCsv.reader stale_files)
  = Ok (Some "Tag Counts:
Tag,Count
sv_P1,2
Untagged,1

Port/Protocol Combination Counts:
Port,Protocol,Count
25,tcp,2
80,undefined,1
").
Proof.
  assert (Hsame : same_inputs sample_files stale_files).
  { intros path Hpath. apply list_elem_of_In in Hpath. simpl in Hpath.
    destruct Hpath as [<-|[<-|[<-|[]]]]; vm_compute; reflexivity. }
  split_and!; [exact Hsame| |vm_compute; reflexivity].
  exact (run_deterministic PlainCsv.reader sample_files stale_files Hsame).
Defined.

(** A second run over the store the first run left changes nothing. *)
Lemma main_twice (csv_reader : string -> list (list string))
    (fs fs' : gmap string string) :
  main csv_reader fs = Ok fs' -> main csv_reader fs' = Ok fs'.
Proof.
  unfold main, load_protocol_mapping, load_lookup_table, parse_flow_logs,
    File.read.
  destruct (fs !! "inputfiles/protocol_number_mapping.csv") as [t1|] eqn:H1;
    [|done].
  cbn [rbind]. destruct (load_protocol_rows _) as [pm|] eqn:Hpm; [|done].
  cbn [rbind].
  destruct (fs !! "inputfiles/lookup_table_refer.csv") as [t2|] eqn:H2;
    [|done].
  cbn [rbind]. destruct (load_lookup_rows _) as [ld|] eqn:Hld; [|done].
  cbn [rbind].
  destruct (fs !! "inputfiles/flow_log_data.txt") as [t3|] eqn:H3; [|done].
  cbn [rbind]. destruct (parse_flow_lines _ _ _) as [c|] eqn:Hc; [|done].
  cbn [rbind]. intros [= <-].
  rewrite !lookup_insert_ne by discriminate. rewrite H1, H2, H3.
  cbn [rbind]. rewrite Hpm. cbn [rbind]. rewrite Hld. cbn [rbind].
  rewrite Hc. cbn [rbind]. by rewrite insert_insert_eq.
Qed.

(** * Further properties of the code *)

(** ** The classifier as a tally *)

Lemma for_each_foldl {A S} (body : S -> A -> result S) (f : S -> A -> S)
    (xs : list A) (st : S) :
  (forall s x, body s x = Ok (f s x)) ->
  for_each body xs st = Ok (foldl f st xs).
Proof.
  intros Hbody. revert st. induction xs as [|x xs IH]; intros st; simpl.
  - done.
  - rewrite Hbody. cbn [rbind]. apply IH.
Qed.

Lemma line_fields_14 line dstport number :
  List.length (PyStr.split line) = 14%nat ->
  PyStr.split line !! 5%nat = Some dstport ->
  PyStr.split line !! 7%nat = Some number ->
  line_fields line = Some (dstport, number).
Proof.
  intros Hlen H5 H7. unfold line_fields, has_14_fields.
  apply Nat.eqb_eq in Hlen. by rewrite Hlen, H5, H7.
Qed.

Lemma line_fields_Some line dstport number :
  line_fields line = Some (dstport, number) ->
  has_14_fields line = true /\
  PyStr.split line !! 5%nat = Some dstport /\
  PyStr.split line !! 7%nat = Some number.
Proof.
  unfold line_fields. destruct (has_14_fields line); [|done].
  destruct (PyStr.split line !! 5%nat), (PyStr.split line !! 7%nat);
    try done.
  by intros [= -> ->].
Qed.

(** The loop body is the tally of the line. *)
Lemma classify_line_tally lookup_dict protocol_mapping st line :
  classify_line lookup_dict protocol_mapping st line
  = Ok (tally_line lookup_dict protocol_mapping st line).
Proof.
  unfold tally_line, line_pair.
  destruct (has_14_fields line) eqn:Hlen.
  - apply Nat.eqb_eq in Hlen.
    destruct (classify_line_14 lookup_dict protocol_mapping st line Hlen)
      as (dstport & number & H5 & H7 & ->).
    by rewrite (line_fields_14 line dstport number Hlen H5 H7).
  - rewrite classify_line_skip_false by done.
    unfold line_fields. by rewrite Hlen.
Qed.

Lemma parse_flow_lines_tally lines lookup_dict protocol_mapping :
  parse_flow_lines lines lookup_dict protocol_mapping
  = Ok (foldl (tally_line lookup_dict protocol_mapping) no_counts lines).
Proof.
  apply for_each_foldl. intros s x. apply classify_line_tally.
Qed.

Lemma tally_tag_counts lookup_dict protocol_mapping lines st :
  tag_counts (foldl (tally_line lookup_dict protocol_mapping) st lines)
  = foldl Counter.incr (tag_counts st)
      (omap (line_tag lookup_dict protocol_mapping) lines).
Proof.
  revert st. induction lines as [|line lines IH]; intros st; [done|].
  cbn [foldl omap list_omap]. rewrite IH. unfold tally_line, line_tag.
  by destruct (line_pair protocol_mapping line).
Qed.

Lemma tally_port_protocol_counts lookup_dict protocol_mapping lines st :
  port_protocol_counts
    (foldl (tally_line lookup_dict protocol_mapping) st lines)
  = foldl Counter.incr (port_protocol_counts st)
      (omap (line_pair protocol_mapping) lines).
Proof.
  revert st. induction lines as [|line lines IH]; intros st; [done|].
  cbn [foldl omap list_omap]. rewrite IH. unfold tally_line.
  by destruct (line_pair protocol_mapping line).
Qed.

Section TallyFacts.
Context {K : Type} `{EqDecision K}.
Implicit Types (d : list (K * Z)) (k : K) (ks : list K).

Lemma count_incr d k k' :
  Counter.count (Counter.incr d k) k'
  = Counter.count d k' + (if decide (k = k') then 1 else 0).
Proof.
  unfold Counter.count at 1. destruct (decide (k = k')) as [<-|Hne].
  - by rewrite get_incr_eq.
  - rewrite get_incr_ne by done. unfold Counter.count. lia.
Qed.

Lemma occurrences_cons k x ks :
  occurrences k (x :: ks)
  = (if decide (x = k) then 1 else 0) + occurrences k ks.
Proof.
  unfold occurrences. cbn [List.filter].
  destruct (decide (x = k)) as [->|Hne].
  - rewrite bool_decide_eq_true_2 by done. cbn [List.length]. lia.
  - rewrite bool_decide_eq_false_2 by done. lia.
Qed.

Lemma count_foldl_incr ks d k :
  Counter.count (foldl Counter.incr d ks) k
  = Counter.count d k + occurrences k ks.
Proof.
  revert d. induction ks as [|x ks IH]; intros d.
  - unfold occurrences. simpl. lia.
  - cbn [foldl]. rewrite IH, count_incr, occurrences_cons. lia.
Qed.

Lemma keys_incr d k :
  Counter.keys (Counter.incr d k)
  = if decide (k ∈ Counter.keys d) then Counter.keys d
    else (Counter.keys d ++ [k])%list.
Proof. rewrite incr_setitem. apply keys_setitem. Qed.

Lemma keys_foldl_incr ks d :
  Counter.keys (foldl Counter.incr d ks)
  = foldl (fun seen k =>
             if decide (k ∈ seen) then seen else (seen ++ [k])%list)
          (Counter.keys d) ks.
Proof.
  revert d. induction ks as [|x ks IH]; intros d; [done|].
  cbn [foldl]. by rewrite IH, keys_incr.
Qed.

Lemma get_None_keys d k : Counter.get d k = None <-> k ∉ Counter.keys d.
Proof.
  unfold Counter.keys. induction d as [|[k0 v0] d IH]; csimpl.
  - split; [intros _; apply not_elem_of_nil|done].
  - rewrite not_elem_of_cons. destruct (decide (k0 = k)) as [->|Hne].
    + split; [done|]. by intros [? _].
    + rewrite IH. split; [intros ?; split; congruence|by intros [_ ?]].
Qed.

Lemma elem_of_seen_from ks (seen : list K) k :
  k ∈ foldl (fun seen k =>
               if decide (k ∈ seen) then seen else (seen ++ [k])%list)
            seen ks
  <-> k ∈ seen \/ k ∈ ks.
Proof.
  revert seen. induction ks as [|x ks IH]; intros seen; cbn [foldl].
  - split; [by left|]. intros [?|Hin]; [done|]. by apply elem_of_nil in Hin.
  - rewrite IH, elem_of_cons. destruct (decide (x ∈ seen)) as [Hx|Hx].
    + split; [tauto|]. intros [?|[->|?]]; tauto.
    + rewrite elem_of_app, list_elem_of_singleton. tauto.
Qed.

Lemma NoDup_seen_from ks (seen : list K) :
  NoDup seen ->
  NoDup (foldl (fun seen k =>
                  if decide (k ∈ seen) then seen else (seen ++ [k])%list)
               seen ks).
Proof.
  revert seen. induction ks as [|x ks IH]; intros seen Hseen; cbn [foldl].
  - done.
  - apply IH. destruct (decide (x ∈ seen)) as [Hx|Hx]; [done|].
    apply NoDup_app. split_and!; [done| |apply NoDup_singleton].
    intros y Hy Hy'. apply list_elem_of_singleton in Hy' as ->. done.
Qed.

End TallyFacts.

(** X1. After any log, the count stored for a tag is the number of
    14-field lines that the tables give that tag, and the count stored
    for a port/protocol pair is the number of 14-field lines with that
    destination port and resolved protocol name; a tag or pair that no
    line gives has no entry. *)
Theorem counts_are_occurrences lines lookup_dict protocol_mapping :
  exists c,
    parse_flow_lines lines lookup_dict protocol_mapping = Ok c /\
    (forall tag,
       Counter.count (tag_counts c) tag
       = occurrences tag (omap (line_tag lookup_dict protocol_mapping) lines)) /\
    (forall key,
       Counter.count (port_protocol_counts c) key
       = occurrences key (omap (line_pair protocol_mapping) lines)) /\
    (forall tag,
       Counter.get (tag_counts c) tag = None <->
       tag ∉ omap (line_tag lookup_dict protocol_mapping) lines) /\
    (forall key,
       Counter.get (port_protocol_counts c) key = None <->
       key ∉ omap (line_pair protocol_mapping) lines).
Proof.
  rewrite parse_flow_lines_tally. eexists. split; [reflexivity|].
  rewrite tally_tag_counts, tally_port_protocol_counts.
  split_and!.
  - intros tag. by rewrite count_foldl_incr.
  - intros key. by rewrite count_foldl_incr.
  - intros tag. rewrite get_None_keys, keys_foldl_incr, elem_of_seen_from.
    cbn. rewrite elem_of_nil. tauto.
  - intros key. rewrite get_None_keys, keys_foldl_incr, elem_of_seen_from.
    cbn. rewrite elem_of_nil. tauto.
Qed.

(** [first_seen] lists each key of the list once. *)
Lemma first_seen_spec {K} `{EqDecision K} (ks : list K) :
  NoDup (first_seen ks) /\ forall k, k ∈ first_seen ks <-> k ∈ ks.
Proof.
  split.
  - apply NoDup_seen_from, NoDup_nil_2.
  - intros k. unfold first_seen. rewrite elem_of_seen_from, elem_of_nil. tauto.
Qed.

(** X2. The entries of both counters, and so the rows of both sections of
    the report, stand in the order in which their tag or port/protocol
    pair first comes in the log. *)
Theorem counters_in_first_seen_order lines lookup_dict protocol_mapping :
  exists c,
    parse_flow_lines lines lookup_dict protocol_mapping = Ok c /\
    Counter.keys (tag_counts c)
    = first_seen (omap (line_tag lookup_dict protocol_mapping) lines) /\
    Counter.keys (port_protocol_counts c)
    = first_seen (omap (line_pair protocol_mapping) lines).
Proof.
  rewrite parse_flow_lines_tally. eexists. split; [reflexivity|].
  rewrite tally_tag_counts, tally_port_protocol_counts.
  by rewrite !keys_foldl_incr.
Qed.

Example first_seen_example :
  first_seen ["b"; "a"; "b"; "c"; "a"] = ["b"; "a"; "c"].
Proof. reflexivity. Qed.

(** ** The two counters against each other *)

Section FilteredTotals.
Context {K : Type} `{EqDecision K}.
Variable p : K -> bool.
Implicit Types (d : list (K * Z)) (k : K) (ks : list K).

Lemma total_cons k v d :
  Counter.total ((k, v) :: d) = v + Counter.total d.
Proof. reflexivity. Qed.

Lemma total_filter_setitem d k v :
  Counter.total (List.filter (fun e => p e.1) (Counter.setitem d k v))
  = Counter.total (List.filter (fun e => p e.1) d)
    + (if p k then v - Counter.count d k else 0).
Proof.
  induction d as [|[k0 v0] d IH].
  - cbn. destruct (p k); unfold Counter.count; cbn; lia.
  - cbn [Counter.setitem]. unfold Counter.count in *. cbn [Counter.get].
    destruct (decide (k0 = k)) as [->|Hne]; cbn [List.filter fst default].
    + destruct (p k); rewrite ?total_cons; unfold id; lia.
    + destruct (p k0); rewrite ?total_cons, IH; lia.
Qed.

Lemma total_filter_incr d k :
  Counter.total (List.filter (fun e => p e.1) (Counter.incr d k))
  = Counter.total (List.filter (fun e => p e.1) d) + (if p k then 1 else 0).
Proof.
  rewrite incr_setitem, total_filter_setitem. destruct (p k); lia.
Qed.

Lemma total_filter_foldl_incr ks d :
  Counter.total (List.filter (fun e => p e.1) (foldl Counter.incr d ks))
  = Counter.total (List.filter (fun e => p e.1) d)
    + Z.of_nat (List.length (List.filter p ks)).
Proof.
  revert d. induction ks as [|x ks IH]; intros d; cbn [foldl List.filter].
  - cbn. lia.
  - rewrite IH, total_filter_incr. destruct (p x); cbn [List.length]; lia.
Qed.

End FilteredTotals.

Lemma omap_line_tag lookup_dict protocol_mapping lines :
  omap (line_tag lookup_dict protocol_mapping) lines
  = map (fun key => default "Untagged" (lookup_dict !! key))
        (omap (line_pair protocol_mapping) lines).
Proof.
  induction lines as [|line lines IH]; [done|].
  cbn [omap list_omap]. unfold line_tag at 1.
  destruct (line_pair protocol_mapping line); cbn [map]; by rewrite IH.
Qed.

Lemma occurrences_map {A B} `{EqDecision B} (f : A -> B) (b : B)
    (xs : list A) :
  occurrences b (map f xs)
  = Z.of_nat (List.length (List.filter (fun x => bool_decide (f x = b)) xs)).
Proof.
  unfold occurrences. induction xs as [|x xs IH]; [done|].
  cbn [map List.filter]. destruct (bool_decide (f x = b)); cbn [List.length]; lia.
Qed.

(** X3. After any log, the count of each tag is the sum of the counts of
    the port/protocol pairs that the lookup table gives that tag (the
    pairs it does not hold counting for "Untagged"): the two sections of
    the report agree tag by tag. *)
Theorem tag_count_sums_its_pairs lines lookup_dict protocol_mapping :
  exists c,
    parse_flow_lines lines lookup_dict protocol_mapping = Ok c /\
    forall tag,
      Counter.count (tag_counts c) tag
      = tagged_total lookup_dict (port_protocol_counts c) tag.
Proof.
  rewrite parse_flow_lines_tally. eexists. split; [reflexivity|].
  intros tag. rewrite tally_tag_counts, tally_port_protocol_counts.
  change (tag_counts no_counts) with (@nil (string * Z)).
  change (port_protocol_counts no_counts) with (@nil ((string * string) * Z)).
  rewrite count_foldl_incr, omap_line_tag, occurrences_map.
  unfold tagged_total.
  pose proof (total_filter_foldl_incr
                (fun key => bool_decide
                   (default "Untagged" (lookup_dict !! key) = tag))
                (omap (line_pair protocol_mapping) lines) []) as Hsum.
  cbv beta in Hsum. rewrite Hsum. cbn. lia.
Qed.

(** ** What a line is read for *)

(** X4. Of a line with 14 fields only the destination port (field 5) and
    the protocol number (field 7) are read: two such lines that agree on
    these two fields change the counters alike, whatever their other
    fields hold. *)
Theorem only_port_and_protocol_read lookup_dict protocol_mapping st
    line1 line2 :
  has_14_fields line1 = true ->
  has_14_fields line2 = true ->
  PyStr.split line1 !! 5%nat = PyStr.split line2 !! 5%nat ->
  PyStr.split line1 !! 7%nat = PyStr.split line2 !! 7%nat ->
  classify_line lookup_dict protocol_mapping st line1
  = classify_line lookup_dict protocol_mapping st line2.
Proof.
  intros H1 H2 H5 H7. rewrite !classify_line_tally.
  unfold tally_line, line_pair, line_fields. by rewrite H1, H2, H5, H7.
Qed.

Lemma only_port_and_protocol_read_witness :
  line_25_tcp ≠ line_25_tcp_other /\
  classify_line sample_lookup sample_protocols no_counts line_25_tcp
  = classify_line sample_lookup sample_protocols no_counts line_25_tcp_other.
Proof.
  split; [discriminate|].
  apply (only_port_and_protocol_read sample_lookup sample_protocols
           no_counts line_25_tcp line_25_tcp_other); vm_compute; reflexivity.
Defined.

(** X5. The classifier invents no key: every tag it counts is "Untagged"
    or a tag of the lookup table, and every protocol name it counts is
    "undefined" or the lower-case form of a name of the protocol
    mapping. *)
Theorem counted_keys_come_from_tables lines lookup_dict protocol_mapping :
  exists c,
    parse_flow_lines lines lookup_dict protocol_mapping = Ok c /\
    (forall tag, tag ∈ Counter.keys (tag_counts c) ->
       tag = "Untagged" \/ exists key, lookup_dict !! key = Some tag) /\
    (forall dstport protocol,
       (dstport, protocol) ∈ Counter.keys (port_protocol_counts c) ->
       protocol = "undefined" \/
       exists number name,
         protocol_mapping !! number = Some name /\
         protocol = PyStr.lower name).
Proof.
  rewrite parse_flow_lines_tally. eexists. split; [reflexivity|].
  rewrite tally_tag_counts, tally_port_protocol_counts, !keys_foldl_incr.
  split.
  - intros tag. rewrite elem_of_seen_from, elem_of_nil, list_elem_of_omap.
    intros [[]|(line & _ & Htag)]. unfold line_tag in Htag.
    destruct (line_pair protocol_mapping line) as [key|]; [|done].
    injection Htag as <-.
    destruct (lookup_dict !! key) as [tag|] eqn:Hkey; cbn; eauto.
  - intros dstport protocol.
    rewrite elem_of_seen_from, elem_of_nil, list_elem_of_omap.
    intros [[]|(line & _ & Hkey)]. unfold line_pair in Hkey.
    destruct (line_fields line) as [[port number]|]; [|done].
    injection Hkey as <- <-. unfold protocol_name.
    destruct (protocol_mapping !! number) as [name|] eqn:Hname; cbn; eauto.
Qed.

(** ** The loaders as folds over the rows *)

Section LoaderFacts.
Context {K V R : Type} `{Countable K}.
Variable entry : R -> option (K * V).
Variable body : gmap K V -> R -> result (gmap K V).
Hypothesis body_Some : forall m r k v,
  entry r = Some (k, v) -> body m r = Ok (<[k := v]> m).
Hypothesis body_None : forall m r,
  entry r = None -> exists e, body m r = Raise e.

Lemma body_Ok_entry m r m' :
  body m r = Ok m' -> exists k v, entry r = Some (k, v) /\ m' = <[k := v]> m.
Proof.
  destruct (entry r) as [[k v]|] eqn:Hentry.
  - rewrite (body_Some m r k v Hentry). intros [= <-]. eauto.
  - destruct (body_None m r Hentry) as (e & ->). done.
Qed.

(** The loop ends normally exactly when every row gives an entry. *)
Lemma for_each_Ok_iff (rows : list R) (m0 : gmap K V) :
  (exists m, for_each body rows m0 = Ok m)
  <-> Forall (fun r => is_Some (entry r)) rows.
Proof.
  revert m0. induction rows as [|r rows IH]; intros m0; simpl.
  - split; [constructor|eauto].
  - rewrite Forall_cons. destruct (entry r) as [[k v]|] eqn:Hentry.
    + rewrite (body_Some m0 r k v Hentry). cbn [rbind]. rewrite IH.
      split; [eauto|tauto].
    + destruct (body_None m0 r Hentry) as (e & ->). cbn [rbind].
      split; [by intros [? ?]|]. intros [[? ?] _]. done.
Qed.

(** Every binding of the result was in the map at the start or is the
    entry of a row. *)
Lemma for_each_binding_origin (rows : list R) (m0 m : gmap K V) k v :
  for_each body rows m0 = Ok m ->
  m !! k = Some v ->
  m0 !! k = Some v \/ exists r, r ∈ rows /\ entry r = Some (k, v).
Proof.
  revert m0. induction rows as [|r rows IH]; intros m0; simpl.
  - intros [= ->] ?. by left.
  - destruct (body m0 r) as [m1|e] eqn:Hbody; cbn [rbind]; [|done].
    intros Hrun Hk. apply body_Ok_entry in Hbody as (k1 & v1 & Hentry & ->).
    destruct (IH _ Hrun Hk) as [Hm1|(r' & Hin & Hr')].
    + apply lookup_insert_Some in Hm1 as [[<- <-]|[_ Hold]].
      * right. exists r. split; [left|done].
      * by left.
    + right. exists r'. split; [by right|done].
Qed.

(** Every key of a row is bound in the result. *)
Lemma for_each_key_bound (rows : list R) (m0 m : gmap K V) r k v :
  for_each body rows m0 = Ok m ->
  r ∈ rows -> entry r = Some (k, v) -> is_Some (m !! k).
Proof.
  intros Hrun Hin Hentry.
  apply list_elem_of_split in Hin as (pre & post & ->).
  apply for_each_app in Hrun as (m1 & _ & Hrun). simpl in Hrun.
  rewrite (body_Some m1 r k v Hentry) in Hrun. cbn [rbind] in Hrun.
  assert (Hmono : forall rs (a b : gmap K V),
            for_each body rs a = Ok b -> is_Some (a !! k) -> is_Some (b !! k)).
  { induction rs as [|x rs IH]; intros a b; simpl.
    - by intros [= ->].
    - destruct (body a x) as [a1|e] eqn:Hbody; cbn [rbind]; [|done].
      intros Hrs Ha. apply (IH _ _ Hrs).
      apply body_Ok_entry in Hbody as (k1 & v1 & _ & ->).
      rewrite lookup_insert_is_Some. destruct (decide (k1 = k)); auto. }
  apply (Hmono _ _ _ Hrun). rewrite lookup_insert_eq. eauto.
Qed.

End LoaderFacts.

Lemma protocol_row_Some m row number name :
  protocol_entry row = Some (number, name) ->
  protocol_row m row = Ok (<[number := name]> m).
Proof.
  unfold protocol_row, protocol_entry, field, getitem.
  destruct (row !! "Decimal") as [[d|]|]; simpl; try done.
  destruct (row !! "Keyword") as [[w|]|]; simpl; try done.
  by intros [= <- <-].
Qed.

Lemma protocol_row_None m row :
  protocol_entry row = None -> exists e, protocol_row m row = Raise e.
Proof.
  unfold protocol_row, protocol_entry, field, getitem.
  destruct (row !! "Decimal") as [[d|]|]; simpl; eauto.
  destruct (row !! "Keyword") as [[w|]|]; simpl; eauto. done.
Qed.

Lemma lookup_row_Some m row key tag :
  lookup_entry row = Some (key, tag) ->
  lookup_row m row = Ok (<[key := tag]> m).
Proof.
  unfold lookup_row, lookup_entry, field, getitem.
  destruct (row !! "dstport") as [[d|]|]; simpl; try done.
  destruct (row !! "protocol") as [[p|]|]; simpl; try done.
  destruct (row !! "tag") as [[t|]|]; simpl; try done.
  by intros [= <- <-].
Qed.

Lemma lookup_row_None m row :
  lookup_entry row = None -> exists e, lookup_row m row = Raise e.
Proof.
  unfold lookup_row, lookup_entry, field, getitem.
  destruct (row !! "dstport") as [[d|]|]; simpl; eauto.
  destruct (row !! "protocol") as [[p|]|]; simpl; eauto.
  destruct (row !! "tag") as [[t|]|]; simpl; eauto. done.
Qed.

(** X6. A loader ends normally exactly when every row after the header
    that is not blank has a value under each required column; one row
    without is enough to abort the load, wherever it stands. *)
Theorem load_succeeds_iff_rows_complete :
  (forall rows,
     (exists m, load_protocol_rows rows = Ok m)
     <-> Forall (fun row => is_Some (field row "Decimal") /\
                            is_Some (field row "Keyword"))
                (Csv.dict_rows rows)) /\
  (forall rows,
     (exists m, load_lookup_rows rows = Ok m)
     <-> Forall (fun row => is_Some (field row "dstport") /\
                            is_Some (field row "protocol") /\
                            is_Some (field row "tag"))
                (Csv.dict_rows rows)).
Proof.
  split; intros rows.
  - unfold load_protocol_rows.
    rewrite (for_each_Ok_iff protocol_entry protocol_row
               protocol_row_Some protocol_row_None).
    apply Forall_proper; [|done]. intros row. unfold protocol_entry.
    destruct (field row "Decimal"), (field row "Keyword");
      split; try (intros [? ?]; done); try (intros [[? ?] [? ?]]; done);
      eauto.
  - unfold load_lookup_rows.
    rewrite (for_each_Ok_iff lookup_entry lookup_row
               lookup_row_Some lookup_row_None).
    apply Forall_proper; [|done]. intros row. unfold lookup_entry.
    destruct (field row "dstport"), (field row "protocol"),
      (field row "tag");
      split; try (intros [? ?]; done);
      try (intros [[? ?] [[? ?] [? ?]]]; done); eauto.
Qed.

(** X7. A loaded table holds what its rows say and nothing else: every
    binding of the mapping is the key and value of some row, and the key
    of every row is bound. *)
Theorem loaded_bindings_are_rows :
  (forall rows m,
     load_protocol_rows rows = Ok m ->
     (forall number name,
        m !! number = Some name ->
        exists row, row ∈ Csv.dict_rows rows /\
                    protocol_entry row = Some (number, name)) /\
     (forall row number name,
        row ∈ Csv.dict_rows rows ->
        protocol_entry row = Some (number, name) ->
        is_Some (m !! number))) /\
  (forall rows m,
     load_lookup_rows rows = Ok m ->
     (forall key tag,
        m !! key = Some tag ->
        exists row, row ∈ Csv.dict_rows rows /\
                    lookup_entry row = Some (key, tag)) /\
     (forall row key tag,
        row ∈ Csv.dict_rows rows ->
        lookup_entry row = Some (key, tag) ->
        is_Some (m !! key))).
Proof.
  split; intros rows m Hload; split.
  - intros number name Hm.
    destruct (for_each_binding_origin protocol_entry protocol_row
                protocol_row_Some protocol_row_None _ _ _ _ _ Hload Hm)
      as [Hempty|?]; [|done].
    by rewrite lookup_empty in Hempty.
  - intros row number name Hin Hentry.
    exact (for_each_key_bound protocol_entry protocol_row
             protocol_row_Some protocol_row_None _ _ _ _ _ _
             Hload Hin Hentry).
  - intros key tag Hm.
    destruct (for_each_binding_origin lookup_entry lookup_row
                lookup_row_Some lookup_row_None _ _ _ _ _ Hload Hm)
      as [Hempty|?]; [|done].
    by rewrite lookup_empty in Hempty.
  - intros row key tag Hin Hentry.
    exact (for_each_key_bound lookup_entry lookup_row
             lookup_row_Some lookup_row_None _ _ _ _ _ _
             Hload Hin Hentry).
Qed.

Lemma loaded_bindings_are_rows_witness :
  exists m,
    load_lookup_rows duplicate_lookup_rows = Ok m /\
    (exists row, row ∈ Csv.dict_rows duplicate_lookup_rows /\
                 lookup_entry row = Some (("68", "udp"), "sv_P2")) /\
    is_Some (m !! ("25", "tcp")).
Proof.
  exists (<[("68", "udp") := "sv_P2"]> (<[("25", "tcp") := "sv_P9"]> ∅)).
  assert (Hload : load_lookup_rows duplicate_lookup_rows
                  = Ok (<[("68", "udp") := "sv_P2"]>
                          (<[("25", "tcp") := "sv_P9"]> ∅)))
    by (vm_compute; reflexivity).
  destruct (proj2 loaded_bindings_are_rows duplicate_lookup_rows _ Hload)
    as [Hfrom Hbound].
  split_and!; [exact Hload| |].
  - apply Hfrom. vm_compute. reflexivity.
  - apply (Hbound
             (Csv.make_row ["dstport"; "protocol"; "tag"]
                ["25"; "tcp"; "sv_P1"]) ("25", "tcp") "sv_P1").
    + left.
    + vm_compute. reflexivity.
Defined.

(** ** Trimmed and lower-case text in the tables *)

Lemma lstrip_starts s : starts_with_space (PyStr.lstrip s) = false.
Proof.
  induction s as [|c s IH]; [done|]. simpl.
  destruct (PyStr.isspace c) eqn:Hc; [done|]. simpl. exact Hc.
Qed.

Lemma rstrip_ends s : ends_with_space (PyStr.rstrip s) = false.
Proof.
  induction s as [|c s IH]; [done|]. simpl.
  destruct (PyStr.rstrip s) as [|c' r] eqn:Hr.
  - destruct (PyStr.isspace c) eqn:Hc; simpl; [done|exact Hc].
  - rewrite andb_false_r. exact IH.
Qed.

Lemma lstrip_ends s :
  ends_with_space s = false -> ends_with_space (PyStr.lstrip s) = false.
Proof.
  induction s as [|c s IH]; [done|]. intros Hs. simpl.
  destruct (PyStr.isspace c) eqn:Hc; [|exact Hs].
  apply IH. destruct s as [|c' s']; [done|exact Hs].
Qed.

Lemma strip_trimmed s : trimmed (PyStr.strip s).
Proof.
  split; [apply lstrip_starts|apply lstrip_ends, rstrip_ends].
Qed.

Lemma isspace_lower_char c :
  PyStr.isspace (PyStr.lower_char c) = PyStr.isspace c.
Proof. destruct c as [[] [] [] [] [] [] [] []]; reflexivity. Qed.

Lemma lower_trimmed s : trimmed s -> trimmed (PyStr.lower s).
Proof.
  intros [Hstart Hend]. split.
  - destruct s as [|c s]; [done|]. simpl. by rewrite isspace_lower_char.
  - clear Hstart. induction s as [|c s IH]; [done|].
    destruct s as [|c' s'].
    + simpl. by rewrite isspace_lower_char.
    + apply IH. exact Hend.
Qed.

Lemma field_trimmed row name s : field row name = Some s -> trimmed s.
Proof.
  unfold field. destruct (row !! name) as [[t|]|]; try done.
  intros [= <-]. apply strip_trimmed.
Qed.

(** X8. Whatever blanks stand around the fields of a table, a loaded
    table holds trimmed text only: no key and no value of the protocol
    mapping, and no port, protocol or tag of the lookup table, starts or
    ends with a whitespace character; and the protocol of every lookup
    key is in lower case. *)
Theorem loaded_text_is_trimmed :
  (forall rows m number name,
     load_protocol_rows rows = Ok m ->
     m !! number = Some name ->
     trimmed number /\ trimmed name) /\
  (forall rows m dstport protocol tag,
     load_lookup_rows rows = Ok m ->
     m !! (dstport, protocol) = Some tag ->
     trimmed dstport /\ trimmed protocol /\ trimmed tag /\
     PyStr.lower protocol = protocol).
Proof.
  split.
  - intros rows m number name Hload Hm.
    destruct (for_each_binding_origin protocol_entry protocol_row
                protocol_row_Some protocol_row_None _ _ _ _ _ Hload Hm)
      as [Hempty|(row & _ & Hentry)].
    { by rewrite lookup_empty in Hempty. }
    unfold protocol_entry in Hentry.
    destruct (field row "Decimal") as [d|] eqn:Hd; [|done].
    destruct (field row "Keyword") as [w|] eqn:Hw; [|done].
    injection Hentry as <- <-. eauto using field_trimmed.
  - intros rows m dstport protocol tag Hload Hm.
    destruct (for_each_binding_origin lookup_entry lookup_row
                lookup_row_Some lookup_row_None _ _ _ _ _ Hload Hm)
      as [Hempty|(row & _ & Hentry)].
    { by rewrite lookup_empty in Hempty. }
    unfold lookup_entry in Hentry.
    destruct (field row "dstport") as [d|] eqn:Hd; [|done].
    destruct (field row "protocol") as [p|] eqn:Hp; [|done].
    destruct (field row "tag") as [t|] eqn:Ht; [|done].
    injection Hentry as <- <- <-.
    split_and!; eauto using field_trimmed, lower_trimmed, lower_idem.
Qed.

Lemma loaded_text_is_trimmed_witness :
  exists m,
    load_lookup_rows mixed_case_lookup_rows = Ok m /\
    m !! ("443", "tcp") = Some "sv_web" /\
    trimmed "443" /\ trimmed "tcp" /\ trimmed "sv_web" /\
    PyStr.lower "tcp" = "tcp".
Proof.
  exists (<[("53", "udp") := "sv_dns"]> (<[("443", "tcp") := "sv_web"]> ∅)).
  assert (Hload : load_lookup_rows mixed_case_lookup_rows
                  = Ok (<[("53", "udp") := "sv_dns"]>
                          (<[("443", "tcp") := "sv_web"]> ∅)))
    by (vm_compute; reflexivity).
  split; [exact Hload|]. split; [vm_compute; reflexivity|].
  apply (proj2 loaded_text_is_trimmed mixed_case_lookup_rows _
           "443" "tcp" "sv_web" Hload).
  vm_compute. reflexivity.
Defined.

(** ** Short rows *)

Lemma foldl_insert_None_elem (ks : list string)
    (d : gmap string (option string)) (c : string) :
  c ∈ ks -> foldl (fun d key => <[key := None]> d) d ks !! c = Some None.
Proof.
  revert d. induction ks as [|k ks IH]; intros d Hin; cbn [foldl].
  - by apply elem_of_nil in Hin.
  - destruct (decide (c ∈ ks)) as [Hks|Hks]; [by apply IH|].
    apply elem_of_cons in Hin as [->|?]; [|done].
    destruct (foldl (fun d key => <[key := None]> d) (<[k := None]> d) ks
                !! k) as [v|] eqn:Hk.
    + clear IH. revert d Hk. induction ks as [|x ks IH]; intros d; cbn [foldl].
      * rewrite lookup_insert_eq. congruence.
      * apply not_elem_of_cons in Hks as [Hx Hks].
        rewrite (insert_insert_ne d) by done. by apply IH.
    + apply foldl_insert_None_None in Hk as [_ Hk].
      by rewrite lookup_insert_eq in Hk.
Qed.

(** A column name beyond the end of a short row is bound to [None]. *)
Lemma make_row_short (header fields : list string) (c : string) :
  c ∈ drop (List.length fields) header ->
  Csv.make_row header fields !! c = Some None.
Proof. apply foldl_insert_None_elem. Qed.

Lemma make_row_is_Some (header fields : list string) (c : string) :
  c ∈ header -> is_Some (Csv.make_row header fields !! c).
Proof.
  intros Hin. destruct (Csv.make_row header fields !! c) eqn:Hc; [eauto|].
  by apply make_row_None in Hc.
Qed.

(** X9. A row that ends before a required column aborts the load with an
    [AttributeError], since the missing field is [None]: unlike a short
    line of the flow log, a short row of a reference table is not passed
    over. Here the header has every required column and the first row
    after it that is not blank is too short for one of them. *)
Theorem short_row_raises_AttributeError :
  (forall header body row rest,
     List.filter Csv.nonblank body = row :: rest ->
     "Decimal" ∈ header -> "Keyword" ∈ header ->
     "Decimal" ∈ drop (List.length row) header \/
     "Keyword" ∈ drop (List.length row) header ->
     load_protocol_rows (header :: body) = Raise AttributeError) /\
  (forall header body row rest,
     List.filter Csv.nonblank body = row :: rest ->
     "dstport" ∈ header -> "protocol" ∈ header -> "tag" ∈ header ->
     "dstport" ∈ drop (List.length row) header \/
     "protocol" ∈ drop (List.length row) header \/
     "tag" ∈ drop (List.length row) header ->
     load_lookup_rows (header :: body) = Raise AttributeError).
Proof.
  split.
  - intros header body row rest Hbody HD HK Hshort.
    unfold load_protocol_rows, Csv.dict_rows. rewrite Hbody.
    cbn [map for_each]. unfold protocol_row, getitem.
    destruct (make_row_is_Some header row _ HD) as [d Hd].
    destruct (make_row_is_Some header row _ HK) as [w Hw].
    rewrite Hd. cbn [rbind]. destruct d as [d|]; [|done].
    cbn [Csv.strip rbind]. rewrite Hw. cbn [rbind].
    destruct w as [w|]; [|done].
    destruct Hshort as [Hs|Hs]; apply (make_row_short header row) in Hs;
      congruence.
  - intros header body row rest Hbody HD HP HT Hshort.
    unfold load_lookup_rows, Csv.dict_rows. rewrite Hbody.
    cbn [map for_each]. unfold lookup_row, getitem.
    destruct (make_row_is_Some header row _ HD) as [d Hd].
    destruct (make_row_is_Some header row _ HP) as [p Hp].
    destruct (make_row_is_Some header row _ HT) as [t Ht].
    rewrite Hd. cbn [rbind]. destruct d as [d|]; [|done].
    cbn [Csv.strip rbind]. rewrite Hp. cbn [rbind].
    destruct p as [p|]; [|done].
    cbn [Csv.strip rbind]. rewrite Ht. cbn [rbind].
    destruct t as [t|]; [|done].
    destruct Hshort as [Hs|[Hs|Hs]]; apply (make_row_short header row) in Hs;
      congruence.
Qed.

Lemma short_row_raises_AttributeError_witness :
  load_protocol_rows [["Decimal"; "Keyword"]; []; ["6"]; ["17"; "UDP"]]
    = Raise AttributeError /\
  load_lookup_rows [["dstport"; "protocol"; "tag"]; ["25"; "tcp"]]
    = Raise AttributeError.
Proof.
  split.
  - apply (proj1 short_row_raises_AttributeError ["Decimal"; "Keyword"]
             [[]; ["6"]; ["17"; "UDP"]] ["6"] [["17"; "UDP"]]).
    + reflexivity.
    + in_columns.
    + in_columns.
    + right. cbn. in_columns.
  - apply (proj2 short_row_raises_AttributeError
             ["dstport"; "protocol"; "tag"] [["25"; "tcp"]] ["25"; "tcp"] []).
    + reflexivity.
    + in_columns.
    + in_columns.
    + in_columns.
    + right. right. cbn. in_columns.
Defined.

(** ** Loader and classifier together *)

(** X10. The letter case of a protocol does not matter, in either table:
    when a row of the lookup table (the last for its key) names a port
    and a protocol, and the protocol mapping gives the number of a line
    a name that differs from that protocol in letter case only, a
    14-field line with that port and number is counted under the tag of
    the row, and under the port with the protocol in lower case. *)
Theorem protocol_case_is_ignored rows lookup_dict pre row post
    dstport protocol tag protocol_mapping number name st line :
  load_lookup_rows rows = Ok lookup_dict ->
  Csv.dict_rows rows = (pre ++ row :: post)%list ->
  field row "dstport" = Some dstport ->
  field row "protocol" = Some protocol ->
  field row "tag" = Some tag ->
  Forall (fun r => fst <$> lookup_entry r
                   ≠ Some (dstport, PyStr.lower protocol)) post ->
  protocol_mapping !! number = Some name ->
  PyStr.lower name = PyStr.lower protocol ->
  line_fields line = Some (dstport, number) ->
  classify_line lookup_dict protocol_mapping st line
  = Ok (Counts (Counter.incr (tag_counts st) tag)
               (Counter.incr (port_protocol_counts st)
                  (dstport, PyStr.lower protocol))).
Proof.
  intros Hload Hrows Hd Hp Ht Hpost Hname Hcase Hline.
  assert (Hkey : lookup_dict !! (dstport, PyStr.lower protocol) = Some tag).
  { unfold load_lookup_rows in Hload. rewrite Hrows in Hload.
    apply (for_each_last_wins lookup_entry lookup_row lookup_row_Ok
             _ _ _ _ _ _ _ Hload); [|done].
    unfold lookup_entry. by rewrite Hd, Hp, Ht. }
  rewrite classify_line_tally. unfold tally_line, line_pair.
  rewrite Hline. unfold protocol_name. rewrite Hname. cbn [default].
  unfold id. rewrite Hcase, Hkey. reflexivity.
Qed.

Lemma protocol_case_is_ignored_witness :
  exists lookup_dict,
    load_lookup_rows mixed_case_lookup_rows = Ok lookup_dict /\
    classify_line lookup_dict mixed_case_protocols no_counts line_443_tcp
    = Ok (Counts [("sv_web", 1)] [(("443", "tcp"), 1)]).
Proof.
  exists (<[("53", "udp") := "sv_dns"]> (<[("443", "tcp") := "sv_web"]> ∅)).
  assert (Hload : load_lookup_rows mixed_case_lookup_rows
                  = Ok (<[("53", "udp") := "sv_dns"]>
                          (<[("443", "tcp") := "sv_web"]> ∅)))
    by (vm_compute; reflexivity).
  split; [exact Hload|].
  apply (protocol_case_is_ignored mixed_case_lookup_rows _ []
           (Csv.make_row ["dstport"; "protocol"; "tag"]
              [" 443 "; "Tcp "; "sv_web"])
           [Csv.make_row ["dstport"; "protocol"; "tag"]
              ["53"; "UDP"; "sv_dns"]]
           "443" "Tcp" "sv_web" mixed_case_protocols "6" "TCP"
           no_counts line_443_tcp Hload);
    try (vm_compute; reflexivity).
  repeat constructor. vm_compute. discriminate.
Defined.

(** ** Logs without a line of 14 fields *)

(** X11. The classifier returns empty counters exactly when no line of
    the log has 14 fields, and the report then is the two headings with
    the blank line between them and no row. *)
Theorem empty_counters_iff_no_valid_line lines lookup_dict protocol_mapping :
  (parse_flow_lines lines lookup_dict protocol_mapping = Ok no_counts
   <-> Forall (fun line => has_14_fields line = false) lines) /\
  write_output (tag_counts no_counts) (port_protocol_counts no_counts)
  = empty_report.
Proof.
  split; [|reflexivity]. split.
  - intros Hrun.
    destruct (for_each_classify_total lookup_dict protocol_mapping lines
                no_counts) as (c & Hc & Ht & _).
    unfold parse_flow_lines in Hrun. rewrite Hrun in Hc.
    injection Hc as <-.
    change (Counter.total (tag_counts no_counts)) with 0 in Ht.
    assert (Hnil : List.filter has_14_fields lines = []).
    { destruct (List.filter has_14_fields lines); [done|].
      cbn [List.length] in Ht. lia. }
    clear -Hnil. induction lines as [|line lines IH]; [constructor|].
    cbn [List.filter] in Hnil.
    destruct (has_14_fields line) eqn:Hline; [done|].
    constructor; [done|by apply IH].
  - intros Hlines. unfold parse_flow_lines.
    induction Hlines as [|line lines Hline _ IH]; [done|].
    cbn [for_each]. rewrite classify_line_skip_false by done. exact IH.
Qed.

(** ** The whole run *)

(** X12. A run that ends normally has changed the output file and no
    other file of the store, and a second run over the store it leaves
    ends with the same store. *)
Theorem main_only_writes_report (csv_reader : string -> list (list string))
    (fs fs' : gmap string string) :
  main csv_reader fs = Ok fs' ->
  (forall path, path ≠ "outputfiles/output_counts.txt" ->
     fs' !! path = fs !! path) /\
  is_Some (fs' !! "outputfiles/output_counts.txt") /\
  main csv_reader fs' = Ok fs'.
Proof.
  intros Hrun. split_and!; [| |by eapply main_twice].
  - revert Hrun. unfold main.
    destruct (load_protocol_mapping _ _ _); cbn [rbind]; [|done].
    destruct (load_lookup_table _ _ _); cbn [rbind]; [|done].
    destruct (parse_flow_logs _ _ _ _); cbn [rbind]; [|done].
    intros [= <-] path Hpath. by rewrite lookup_insert_ne.
  - revert Hrun. unfold main.
    destruct (load_protocol_mapping _ _ _); cbn [rbind]; [|done].
    destruct (load_lookup_table _ _ _); cbn [rbind]; [|done].
    destruct (parse_flow_logs _ _ _ _); cbn [rbind]; [|done].
    intros [= <-]. rewrite lookup_insert_eq. eauto.
Qed.

Lemma main_only_writes_report_witness :
  exists fs',
    main PlainCsv.reader stale_files = Ok fs' /\
    fs' !! "notes.txt" = Some "kept" /\
    main PlainCsv.reader fs' = Ok fs'.
Proof.
  destruct (main PlainCsv.reader stale_files) as [fs'|e] eqn:Hrun;
    [|vm_compute in Hrun; discriminate Hrun].
  exists fs'.
  destruct (main_only_writes_report PlainCsv.reader stale_files fs' Hrun)
    as (Hframe & _ & Htwice).
  split_and!; [reflexivity| |exact Htwice].
  rewrite Hframe by discriminate. vm_compute. reflexivity.
Defined.


(** ** The fields of a line *)

Lemma no_space_rev_onto cur acc :
  no_space (PyStr.rev_onto cur acc) = no_space cur && no_space acc.
Proof.
  revert acc. induction cur as [|c cur IH]; intros acc; [done|].
  cbn [PyStr.rev_onto no_space]. rewrite IH. cbn [no_space].
  destruct (PyStr.isspace c), (no_space cur), (no_space acc); done.
Qed.

Lemma rev_onto_nonempty cur acc :
  acc ≠ "" -> PyStr.rev_onto cur acc ≠ "".
Proof.
  revert acc. induction cur as [|c cur IH]; intros acc Hacc; [done|].
  cbn [PyStr.rev_onto]. by apply IH.
Qed.

Lemma flush_fields (P : string -> Prop) cur rest :
  (cur ≠ "" -> P (PyStr.rev_onto cur "")) ->
  Forall P rest -> Forall P (PyStr.flush cur rest).
Proof.
  intros Hcur Hrest. unfold PyStr.flush.
  destruct cur as [|c cur]; [done|]. constructor; [by apply Hcur|done].
Qed.

Lemma split_go_fields cur s :
  no_space cur = true ->
  Forall (fun f => f ≠ "" /\ no_space f = true) (PyStr.split_go cur s).
Proof.
  revert cur. induction s as [|c s IH]; intros cur Hcur; cbn [PyStr.split_go].
  - apply flush_fields; [|constructor]. intros Hne. split.
    + destruct cur as [|x cur]; [done|]. cbn [PyStr.rev_onto].
      by apply rev_onto_nonempty.
    + by rewrite no_space_rev_onto, Hcur.
  - destruct (PyStr.isspace c) eqn:Hc.
    + apply flush_fields; [|by apply IH]. intros Hne. split.
      * destruct cur as [|x cur]; [done|]. cbn [PyStr.rev_onto].
      by apply rev_onto_nonempty.
      * by rewrite no_space_rev_onto, Hcur.
    + apply IH. cbn [no_space]. by rewrite Hc, Hcur.
Qed.

(** X14. Every field the classifier gets from a line is a text without
    whitespace that is not empty, so no destination port and no protocol
    number it reads is blank or holds a blank. *)
Theorem split_fields_nonblank line :
  Forall (fun f => f ≠ "" /\ no_space f = true) (PyStr.split line) /\
  forall dstport number,
    line_fields line = Some (dstport, number) ->
    dstport ≠ "" /\ no_space dstport = true /\
    number ≠ "" /\ no_space number = true.
Proof.
  assert (Hall : Forall (fun f => f ≠ "" /\ no_space f = true)
                   (PyStr.split line)) by by apply split_go_fields.
  split; [exact Hall|]. intros dstport number Hline.
  apply line_fields_Some in Hline as (_ & H5 & H7).
  rewrite Forall_forall in Hall.
  apply list_elem_of_lookup_2 in H5, H7.
  destruct (Hall _ H5), (Hall _ H7). done.
Qed.

(** ** Logs in parts and in another order *)

Lemma occurrences_app {K} `{EqDecision K} (k : K) (xs ys : list K) :
  occurrences k (xs ++ ys)%list = occurrences k xs + occurrences k ys.
Proof.
  induction xs as [|x xs IH].
  - unfold occurrences at 2. cbn. lia.
  - change ((x :: xs) ++ ys)%list with (x :: (xs ++ ys)%list).
    rewrite !occurrences_cons, IH. lia.
Qed.

Lemma occurrences_Permutation {K} `{EqDecision K} (k : K) (xs ys : list K) :
  xs ≡ₚ ys -> occurrences k xs = occurrences k ys.
Proof.
  induction 1 as [|x xs ys _ IH|x y xs|xs ys zs _ IH1 _ IH2].
  - done.
  - by rewrite !occurrences_cons, IH.
  - rewrite !occurrences_cons. lia.
  - by rewrite IH1.
Qed.

(** X15. Counting is additive over the log: the counts for a log made of
    two parts are, tag by tag and pair by pair, the sums of the counts
    for the parts. *)
Theorem counts_add_over_parts lines1 lines2 lookup_dict protocol_mapping :
  exists c1 c2 c,
    parse_flow_lines lines1 lookup_dict protocol_mapping = Ok c1 /\
    parse_flow_lines lines2 lookup_dict protocol_mapping = Ok c2 /\
    parse_flow_lines (lines1 ++ lines2)%list lookup_dict protocol_mapping
      = Ok c /\
    (forall tag,
       Counter.count (tag_counts c) tag
       = Counter.count (tag_counts c1) tag
         + Counter.count (tag_counts c2) tag) /\
    (forall key,
       Counter.count (port_protocol_counts c) key
       = Counter.count (port_protocol_counts c1) key
         + Counter.count (port_protocol_counts c2) key).
Proof.
  rewrite !parse_flow_lines_tally. eexists _, _, _.
  split_and!; [reflexivity..| |].
  - intros tag. rewrite !tally_tag_counts, !count_foldl_incr, omap_app,
      occurrences_app.
    change (Counter.count (tag_counts no_counts) tag) with 0. lia.
  - intros key. rewrite !tally_port_protocol_counts, !count_foldl_incr,
      omap_app, occurrences_app.
    change (Counter.count (port_protocol_counts no_counts) key) with 0. lia.
Qed.

(** X16. The counts do not depend on the order of the lines: two logs
    with the same lines in any order give every tag and every
    port/protocol pair the same count (the order of the rows of the
    report may differ). *)
Theorem counts_ignore_line_order lines lines' lookup_dict protocol_mapping :
  lines ≡ₚ lines' ->
  exists c c',
    parse_flow_lines lines lookup_dict protocol_mapping = Ok c /\
    parse_flow_lines lines' lookup_dict protocol_mapping = Ok c' /\
    (forall tag,
       Counter.count (tag_counts c) tag = Counter.count (tag_counts c') tag) /\
    (forall key,
       Counter.count (port_protocol_counts c) key
       = Counter.count (port_protocol_counts c') key).
Proof.
  intros Hperm. rewrite !parse_flow_lines_tally. eexists _, _.
  split_and!; [reflexivity..| |].
  - intros tag. rewrite !tally_tag_counts, !count_foldl_incr. f_equal.
    apply occurrences_Permutation. by apply omap_Permutation.
  - intros key. rewrite !tally_port_protocol_counts, !count_foldl_incr.
    f_equal. apply occurrences_Permutation. by apply omap_Permutation.
Qed.

Lemma counts_ignore_line_order_witness :
  exists c c',
    parse_flow_lines [line_25_tcp; line_80_unknown; line_short]
      sample_lookup sample_protocols = Ok c /\
    parse_flow_lines [line_short; line_80_unknown; line_25_tcp]
      sample_lookup sample_protocols = Ok c' /\
    Counter.keys (tag_counts c) ≠ Counter.keys (tag_counts c') /\
    (forall tag,
       Counter.count (tag_counts c) tag = Counter.count (tag_counts c') tag) /\
    (forall key,
       Counter.count (port_protocol_counts c) key
       = Counter.count (port_protocol_counts c') key).
Proof.
  destruct (counts_ignore_line_order
              [line_25_tcp; line_80_unknown; line_short]
              [line_short; line_80_unknown; line_25_tcp]
              sample_lookup sample_protocols)
    as (c & c' & Hc & Hc' & Ht & Hp).
  { change [line_25_tcp; line_80_unknown; line_short]
      with (reverse [line_short; line_80_unknown; line_25_tcp]).
    apply reverse_Permutation. }
  exists c, c'. split_and!; [exact Hc|exact Hc'| |exact Ht|exact Hp].
  vm_compute in Hc, Hc'. injection Hc as <-. injection Hc' as <-.
  cbn. discriminate.
Defined.

(** ** The lines of a file *)

Lemma rev_onto_append cur acc :
  PyStr.rev_onto cur acc = PyStr.rev_onto cur "" +:+ acc.
Proof.
  revert acc. induction cur as [|c cur IH]; intros acc; [done|].
  cbn [PyStr.rev_onto]. rewrite (IH (String c acc)), (IH (String c "")).
  by rewrite append_assoc.
Qed.

Lemma lines_go_concat cur s :
  no_CR s = true ->
  concat_text (File.lines_go false cur s) = PyStr.rev_onto cur "" +:+ s.
Proof.
  revert cur. induction s as [|c s IH]; intros cur Hs.
  - cbn [File.lines_go]. unfold PyStr.flush.
    destruct cur as [|x cur]; [done|]. cbn [PyStr.is_empty concat_text foldr].
    reflexivity.
  - cbn [no_CR] in Hs. apply andb_true_iff in Hs as [Hc Hs].
    apply negb_true_iff in Hc. cbn [File.lines_go]. rewrite Hc.
    destruct (Ascii.eqb c File.LF) eqn:Hlf.
    + apply Ascii.eqb_eq in Hlf as ->.
      cbn [concat_text foldr]. fold (concat_text (File.lines_go false "" s)).
      rewrite (IH "" Hs). cbn [PyStr.rev_onto].
      rewrite (rev_onto_append cur (String File.LF "")), append_assoc.
      reflexivity.
    + rewrite (IH _ Hs). cbn [PyStr.rev_onto].
      rewrite (rev_onto_append cur (String c "")), append_assoc.
      reflexivity.
Qed.

(** X17. Iterating over the flow log loses nothing: for a text without
    carriage returns the lines the classifier is given, one after the
    other, are the text of the file again. *)
Theorem lines_concat_is_text text :
  no_CR text = true -> concat_text (File.lines text) = text.
Proof. intros Htext. unfold File.lines. by rewrite lines_go_concat. Qed.

Lemma lines_concat_is_text_witness :
  no_CR (line_25_tcp +:+ line_short +:+ "last line") = true /\
  File.lines (line_25_tcp +:+ line_short +:+ "last line")
  = [line_25_tcp; line_short; "last line"] /\
  concat_text (File.lines (line_25_tcp +:+ line_short +:+ "last line"))
  = line_25_tcp +:+ line_short +:+ "last line".
Proof.
  split_and!; [vm_compute; reflexivity..|].
  apply (lines_concat_is_text (line_25_tcp +:+ line_short +:+ "last line")).
  vm_compute. reflexivity.
Defined.

